(** * dbimgtoolset: metadata reading, selective stripping and the SAFE pipeline

    A shallow embedding of [dbimgtoolset.py].  The program is a Tk front end
    over three collaborators: the ExifTool executable, the PIL imaging
    library and the optional rembg background remover.  The collaborators
    are gathered in a [World] record; everything the program itself decides
    (argument lists, exit-status handling, exception handling, the order of
    the pipeline stages, the updates of the single-image state) is written
    out as Rocq functions over that record.

    Conventions.
    - [str] values are [string]s, read as sequences of code points below
      256; [bytes] values are [list byte].
    - Python [float]s are IEEE binary64 numbers: Rocq's primitive [float].
    - A call that may raise returns [result A]; [try_except] is the
      [try: ... except Exception: ...] statement.  A call into a library
      returns an [outcome]: its value, or an exception of the library's.
    - Methods of [App] run in the monad [M], which threads the object's
      attributes and keeps them when an exception is raised (an assignment
      made before a [raise] stays made).
    - A temporary file of the two ExifTool wrappers is made by the system:
      making it may raise, and each file gets a name of its own, so the
      session counts the files it has asked for.  Removing one cannot raise
      (each [os.remove] sits in its own [try]).  The widgets of the window
      are a collaborator like the others: refreshing them reads the
      attributes and may raise.
    - What only [action_open], [action_convert] and [find_exiftool] call
      (the file dialog, the file system, PIL's encoders by format name, the
      functions of [os.path] and [shutil]) is a parameter of the section
      that models them. *)

From Stdlib Require Import ZArith String Ascii List Bool Floats Lia.
Import ListNotations.
Open Scope string_scope.
Open Scope Z_scope.

Set Implicit Arguments.

(** ** Exceptions and results *)

(** The exceptions the program can see.  [RuntimeError] is the only class the
    program raises itself; the builtin classes come from the Python operations
    spelled out below (unpacking, indexing, [float()], division, attribute
    lookup); [External] stands for whatever a library call raises ([OSError]
    from [subprocess], [UnidentifiedImageError] from PIL, [JSONDecodeError],
    a failure inside rembg, ...). *)
Inductive exn : Type :=
| RuntimeError (msg : string)
| TypeError
| ValueError
| IndexError
| KeyError
| AttributeError
| ZeroDivisionError
| OverflowError
| External (descr : string).

Inductive result (A : Type) : Type :=
| Ok (a : A)
| Raise (e : exn).
Arguments Ok {A} a.
Arguments Raise {A} e.

Definition rbind {A B} (r : result A) (k : A -> result B) : result B :=
  match r with
  | Ok a => k a
  | Raise e => Raise e
  end.

(** [try: body  except Exception: handler] *)
Definition try_except {A} (body : result A) (handler : exn -> result A) : result A :=
  match body with
  | Ok a => Ok a
  | Raise e => handler e
  end.

(** [try: body  finally: cleanup], for a cleanup that cannot raise (each
    [os.remove] of the program sits in its own [try/except: pass]).  The
    temporary files live outside the values the program computes with, so the
    cleanup leaves the outcome of [body] as it is. *)
Definition try_finally {A} (body : result A) (cleanup : unit) : result A :=
  match cleanup with tt => body end.

Declare Scope result_scope.
Delimit Scope result_scope with result.
Notation "x <- c1 ;; c2" := (rbind c1 (fun x => c2))
  (at level 61, c1 at next level, right associativity) : result_scope.

(** What a call into a library (subprocess, json, PIL, rembg) does: it
    returns, or it raises an exception of the library's. *)
Inductive outcome (A : Type) : Type :=
| Returns (a : A)
| Fails (descr : string).
Arguments Returns {A} a.
Arguments Fails {A} descr.

Definition call {A} (o : outcome A) : result A :=
  match o with
  | Returns a => Ok a
  | Fails d => Raise (External d)
  end.

(** ** Strings *)

Definition bytes := list Byte.byte.

Definition code (c : ascii) : N := N_of_ascii c.

(** [str.isspace] on the code points below 256. *)
Definition is_space (c : ascii) : bool :=
  let n := code c in
  ((9 <=? n) && (n <=? 13) || (28 <=? n) && (n <=? 32)
   || (n =? 133) || (n =? 160))%N.

Fixpoint lstrip (s : string) : string :=
  match s with
  | EmptyString => EmptyString
  | String c t => if is_space c then lstrip t else s
  end.

(** [rstrip] drops the trailing run of white space: a character is kept when
    it is not white space or something after it is kept. *)
Fixpoint rstrip (s : string) : string :=
  match s with
  | EmptyString => EmptyString
  | String c t =>
      match rstrip t with
      | EmptyString => if is_space c then EmptyString else String c EmptyString
      | t' => String c t'
      end
  end.

(** [s.strip()] *)
Definition strip (s : string) : string := rstrip (lstrip s).

(** Truth value of a [str]: non-empty. *)
Definition str_truthy (s : string) : bool :=
  match s with EmptyString => false | _ => true end.

(** [a or b] on two [str] values. *)
Definition str_or (a b : string) : string := if str_truthy a then a else b.

Definition lower_char (c : ascii) : ascii :=
  let n := code c in
  if ((65 <=? n) && (n <=? 90) || (192 <=? n) && (n <=? 222) && negb (n =? 215))%N
  then ascii_of_N (n + 32) else c.

(** [s.lower()]: exact on the code points below 256. *)
Fixpoint lower (s : string) : string :=
  match s with
  | EmptyString => EmptyString
  | String c t => String (lower_char c) (lower t)
  end.

(** [s.upper()].  Exact on ASCII and on the accented letters whose capital
    lies below 256; the sharp s becomes "SS" as in Python.  The micro sign and
    the y with diaeresis, whose capitals lie above 255, are left as they are:
    no string containing them equals an ASCII string before or after. *)
Fixpoint upper (s : string) : string :=
  match s with
  | EmptyString => EmptyString
  | String c t =>
      let n := code c in
      if (n =? 223)%N then String "S" (String "S" (upper t))
      else if ((97 <=? n) && (n <=? 122)
               || (224 <=? n) && (n <=? 254) && negb (n =? 247))%N
      then String (ascii_of_N (n - 32)) (upper t)
      else String c (upper t)
  end.

Fixpoint prefix_of (p s : string) : bool :=
  match p, s with
  | EmptyString, _ => true
  | String a p', String b s' => Ascii.eqb a b && prefix_of p' s'
  | String _ _, EmptyString => false
  end.

(** [p in s] for two [str] values: substring test. *)
Fixpoint str_contains (p s : string) : bool :=
  prefix_of p s ||
  match s with
  | EmptyString => false
  | String _ t => str_contains p t
  end.

(** [s.split(sep)[-1]] for a one-character separator: what follows the last
    separator, the whole string when there is none. *)
Fixpoint after_last (sep : ascii) (s : string) : string :=
  match s with
  | EmptyString => EmptyString
  | String c t =>
      if Ascii.eqb c sep then after_last sep t
      else if str_contains (String sep EmptyString) t then after_last sep t
      else s
  end.

(** [str(n)] for an [int]. *)
Definition digit_char (d : Z) : ascii := ascii_of_N (48 + Z.to_N d).

Fixpoint digits_fuel (fuel : nat) (n : Z) (acc : string) : string :=
  match fuel with
  | O => acc
  | S f =>
      let acc' := String (digit_char (n mod 10)) acc in
      if n <? 10 then acc' else digits_fuel f (n / 10) acc'
  end.

Definition str_of_int (n : Z) : string :=
  let a := Z.abs n in
  let ds := digits_fuel (S (Z.to_nat (Z.log2 a))) a EmptyString in
  if n <? 0 then String "-" ds else ds.

(** [repr(s)] for a [str], on the code points below 256. *)
Definition squote : ascii := "039".
Definition dquote : ascii := "034".
Definition backslash : ascii := "092".

Definition hex_digit (n : N) : ascii :=
  if (n <? 10)%N then ascii_of_N (48 + n) else ascii_of_N (87 + n).

Definition hex_escape (c : ascii) : string :=
  let n := code c in
  String backslash (String "x" (String (hex_digit (n / 16)) (String (hex_digit (n mod 16)) EmptyString))).

Definition printable (c : ascii) : bool :=
  let n := code c in
  ((32 <=? n) && (n <=? 126) || (161 <=? n) && negb (n =? 173))%N.

Definition repr_char (quote c : ascii) : string :=
  let n := code c in
  if Ascii.eqb c quote || Ascii.eqb c backslash then String backslash (String c EmptyString)
  else if (n =? 9)%N then String backslash "t"
  else if (n =? 10)%N then String backslash "n"
  else if (n =? 13)%N then String backslash "r"
  else if printable c then String c EmptyString
  else hex_escape c.

Fixpoint repr_body (quote : ascii) (s : string) : string :=
  match s with
  | EmptyString => EmptyString
  | String c t => repr_char quote c ++ repr_body quote t
  end.

Definition repr_str (s : string) : string :=
  let quote :=
    if str_contains (String squote EmptyString) s
       && negb (str_contains (String dquote EmptyString) s)
    then dquote else squote in
  String quote (repr_body quote s ++ String quote EmptyString).

Fixpoint join (sep : string) (l : list string) : string :=
  match l with
  | [] => EmptyString
  | [x] => x
  | x :: t => x ++ sep ++ join sep t
  end.

(** [repr(l)], i.e. what an f-string shows, for a list of [str]. *)
Definition repr_list (l : list string) : string :=
  "[" ++ join ", " (map repr_str l) ++ "]".

Definition newline : string := String "010" EmptyString.

(** ** Selective strip: the directive lists *)

Definition GPS_ARGS : list string := ["-GPS:all="].
Definition DEVICE_ARGS : list string :=
  ["-Make="; "-Model="; "-SerialNumber="; "-BodySerialNumber=";
   "-CameraSerialNumber="; "-LensSerialNumber="; "-LensModel="; "-LensID=";
   "-Artist="; "-OwnerName="].
Definition DATETIME_ARGS : list string :=
  ["-DateTimeOriginal="; "-CreateDate="; "-ModifyDate="; "-SubSecTime*=";
   "-OffsetTime*="].

(** [x in l] for a list of [str]. *)
Definition str_in (x : string) (l : list string) : bool :=
  existsb (String.eqb x) l.

Definition build_strip_args (categories : list string) : list string :=
  let args : list string := [] in
  let args := if str_in "gps" categories then (args ++ GPS_ARGS)%list else args in
  let args := if str_in "device" categories then (args ++ DEVICE_ARGS)%list else args in
  let args := if str_in "datetime" categories then (args ++ DATETIME_ARGS)%list else args in
  args.

(** ** Python values *)

#[local] Set Warnings "-register-all".

Inductive pykey : Type :=
| KInt (z : Z)
| KStr (s : string).

(** The values that travel through the metadata code: what [json.loads]
    builds, and what PIL hands out for EXIF fields.  A [dict] keeps its
    insertion order, as Python's does. *)
Inductive pyval : Type :=
| VNone
| VBool (b : bool)
| VInt (z : Z)
| VFloat (f : float)
| VStr (s : string)
| VBytes (b : bytes)
| VTuple (items : list pyval)
| VList (items : list pyval)
| VDict (entries : list (pykey * pyval)).

Definition pydict := list (pykey * pyval).

Definition key_eqb (a b : pykey) : bool :=
  match a, b with
  | KInt x, KInt y => x =? y
  | KStr x, KStr y => String.eqb x y
  | _, _ => false
  end.

(** [d.get(k)], [None] when the key is missing. *)
Fixpoint dict_find (d : pydict) (k : pykey) : option pyval :=
  match d with
  | [] => None
  | (k', v) :: t => if key_eqb k' k then Some v else dict_find t k
  end.

Definition dict_get (d : pydict) (k : string) : pyval :=
  match dict_find d (KStr k) with
  | Some v => v
  | None => VNone
  end.

(** [k in d] *)
Definition dict_mem (d : pydict) (k : string) : bool :=
  match dict_find d (KStr k) with
  | Some _ => true
  | None => false
  end.

(** [d[k] = v]: an existing key keeps its place, a new one goes last. *)
Fixpoint dict_set (d : pydict) (k : pykey) (v : pyval) : pydict :=
  match d with
  | [] => [(k, v)]
  | (k', v') :: t =>
      if key_eqb k' k then (k', v) :: t else (k', v') :: dict_set t k v
  end.

(** Truth value of an object. *)
Definition truthy (v : pyval) : bool :=
  match v with
  | VNone => false
  | VBool b => b
  | VInt z => negb (z =? 0)
  | VFloat f => negb (PrimFloat.eqb f 0%float)
  | VStr s => str_truthy s
  | VBytes b => match b with [] => false | _ => true end
  | VTuple l | VList l => match l with [] => false | _ => true end
  | VDict d => match d with [] => false | _ => true end
  end.

Definition key_val (k : pykey) : pyval :=
  match k with
  | KInt z => VInt z
  | KStr s => VStr s
  end.

Fixpoint chars (s : string) : list pyval :=
  match s with
  | EmptyString => []
  | String c t => VStr (String c EmptyString) :: chars t
  end.

(** The items an object yields when iterated ([a, b, c = v] iterates [v]);
    [TypeError] for an object that is not iterable. *)
Definition py_iter (v : pyval) : result (list pyval) :=
  match v with
  | VTuple l | VList l => Ok l
  | VStr s => Ok (chars s)
  | VBytes b => Ok (map (fun x => VInt (Z.of_N (Byte.to_N x))) b)
  | VDict d => Ok (map (fun kv => key_val (fst kv)) d)
  | VNone | VBool _ | VInt _ | VFloat _ => Raise TypeError
  end.

(** ** [float()] *)

(** The correctly rounded binary64 value of an integer times a power of two:
    the Standard Library's reference rounding (to nearest, ties to even;
    infinite on overflow). *)
Definition round_scaled (m e : Z) (negative_zero : bool) : float :=
  SF2Prim (binary_normalize prec emax m e negative_zero).

(** The correctly rounded value of [m * 10^e10].  A negative exponent is a
    division: the quotient is taken with at least 64 significant bits and one
    more bit that records whether anything was left over, which is all that
    rounding to 53 bits looks at. *)
Definition round_decimal (negative : bool) (m e10 : Z) : float :=
  let sgn := if negative then -1 else 1 in
  if m =? 0 then round_scaled 0 0 negative
  else if 0 <=? e10 then round_scaled (sgn * (m * 10 ^ e10)) 0 negative
  else
    let d := 10 ^ (- e10) in
    let k := Z.max 0 (64 + Z.log2 d - Z.log2 m) in
    let q := (m * 2 ^ k) / d in
    let sticky := if (m * 2 ^ k) mod d =? 0 then 0 else 1 in
    round_scaled (sgn * (2 * q + sticky)) (- k - 1) negative.

Definition is_digit (c : ascii) : bool :=
  ((48 <=? code c) && (code c <=? 57))%N.

Definition digit_val (c : ascii) : Z := Z.of_N (code c) - 48.

(** [digit (["_"] digit)*] after its first digit: the value read so far, the
    number of digits read, and what is left. *)
Fixpoint digits_tail (s : string) (acc n : Z) : Z * Z * string :=
  match s with
  | String c t =>
      if is_digit c then digits_tail t (10 * acc + digit_val c) (n + 1)
      else if Ascii.eqb c "_" then
        match t with
        | String c' t' =>
            if is_digit c' then digits_tail t' (10 * acc + digit_val c') (n + 1)
            else (acc, n, s)
        | EmptyString => (acc, n, s)
        end
      else (acc, n, s)
  | EmptyString => (acc, n, s)
  end.

(** An optional [digitpart] continuing the number [acc]: no digit read when
    the text does not start with one. *)
Definition digitpart (s : string) (acc : Z) : Z * Z * string :=
  match s with
  | String c t => if is_digit c then digits_tail t (10 * acc + digit_val c) 1 else (acc, 0, s)
  | EmptyString => (acc, 0, s)
  end.

(** [("e" | "E") ["+" | "-"] digitpart], then the end of the text. *)
Definition exponent (s : string) : option Z :=
  match s with
  | EmptyString => Some 0
  | String c t =>
      if Ascii.eqb c "e" || Ascii.eqb c "E" then
        let '(neg, t1) :=
          match t with
          | String "-" u => (true, u)
          | String "+" u => (false, u)
          | _ => (false, t)
          end in
        match digitpart t1 0 with
        | (_, 0, _) => None
        | (e, _, EmptyString) => Some (if neg then - e else e)
        | _ => None
        end
      else None
  end.

(** [floatnumber]: [[digitpart] "." digitpart | digitpart ["."]] and an
    optional exponent; yields the decimal mantissa and exponent. *)
Definition floatnumber (s : string) : option (Z * Z) :=
  let '(ip, ni, r1) := digitpart s 0 in
  let '(m, nf, r2) :=
    match r1 with
    | String "." t => digitpart t ip
    | _ => (ip, 0, r1)
    end in
  let dot_misplaced :=
    (* a "_" may not follow the point, and a lone point is no number *)
    match r1 with
    | String "." _ => (ni =? 0) && (nf =? 0)
    | _ => ni =? 0
    end in
  if dot_misplaced then None
  else match exponent r2 with
       | Some e => Some (m, e - nf)
       | None => None
       end.

(** The text of a number after white space has been stripped: a sign, then
    [inf], [infinity] or [nan] in any case, or a decimal number. *)
Definition float_of_text (s : string) : option float :=
  let '(negative, body) :=
    match s with
    | String "-" t => (true, t)
    | String "+" t => (false, t)
    | _ => (false, s)
    end in
  let word := lower body in
  if String.eqb word "inf" || String.eqb word "infinity"
  then Some (if negative then neg_infinity else infinity)
  else if String.eqb word "nan" then Some nan
  else match floatnumber body with
       | Some (m, e) => Some (round_decimal negative m e)
       | None => None
       end.

(** White space for [float()] and for [bytes]: the ASCII one. *)
Definition is_ascii_space (c : ascii) : bool :=
  ((9 <=? code c) && (code c <=? 13) || (code c =? 32))%N.

Fixpoint lstrip_ascii (s : string) : string :=
  match s with
  | EmptyString => EmptyString
  | String c t => if is_ascii_space c then lstrip_ascii t else s
  end.

Fixpoint rstrip_ascii (s : string) : string :=
  match s with
  | EmptyString => EmptyString
  | String c t =>
      match rstrip_ascii t with
      | EmptyString => if is_ascii_space c then EmptyString else String c EmptyString
      | t' => String c t'
      end
  end.

Definition float_of_bytes (b : bytes) : option float :=
  float_of_text (rstrip_ascii (lstrip_ascii (string_of_list_byte b))).

(** What [float()] makes of a [str] before it parses: the white space above
    code point 126 (the next-line and no-break-space characters, below 256)
    becomes a blank.  The separators 28 to 31, which [str.strip] removes, are
    left in place, so [float()] rejects a text that starts or ends with one. *)
Fixpoint spaces_to_ascii (s : string) : string :=
  match s with
  | EmptyString => EmptyString
  | String c t =>
      String (if ((code c =? 133) || (code c =? 160))%N then " "%char else c)
        (spaces_to_ascii t)
  end.

(** [float(s)] for a [str]; [None] is [ValueError]. *)
Definition float_of_str (s : string) : option float :=
  float_of_text (rstrip_ascii (lstrip_ascii (spaces_to_ascii s))).

(** [float(n)] for an [int]: rounded to nearest, [OverflowError] when the
    integer is too large. *)
Definition float_of_int (z : Z) : result float :=
  let f := round_scaled z 0 false in
  if is_infinity f then Raise OverflowError else Ok f.

(** [float(v)] *)
Definition py_float (v : pyval) : result float :=
  match v with
  | VFloat f => Ok f
  | VInt z => float_of_int z
  | VBool b => Ok (if b then 1%float else 0%float)
  | VStr s => match float_of_str s with Some f => Ok f | None => Raise ValueError end
  | VBytes b => match float_of_bytes b with Some f => Ok f | None => Raise ValueError end
  | VNone | VTuple _ | VList _ | VDict _ => Raise TypeError
  end.

(** [a / b] on floats: [ZeroDivisionError] for a zero divisor. *)
Definition float_div (a b : float) : result float :=
  if PrimFloat.eqb b 0%float then Raise ZeroDivisionError else Ok (a / b)%float.

Definition is_finite (f : float) : bool := negb (is_nan f) && negb (is_infinity f).

(** [v[i]] for a non-negative constant index. *)
Definition py_index (v : pyval) (i : nat) : result pyval :=
  match v with
  | VTuple l | VList l =>
      match nth_error l i with Some x => Ok x | None => Raise IndexError end
  | VStr s =>
      match nth_error (chars s) i with Some x => Ok x | None => Raise IndexError end
  | VBytes b =>
      match nth_error b i with
      | Some x => Ok (VInt (Z.of_N (Byte.to_N x)))
      | None => Raise IndexError
      end
  | VDict d =>
      match dict_find d (KInt (Z.of_nat i)) with Some x => Ok x | None => Raise KeyError end
  | VNone | VBool _ | VInt _ | VFloat _ => Raise TypeError
  end.

(** ** The collaborators *)

Record CompletedProcess : Type := {
  returncode : Z;
  stdout : string;
  stderr : string
}.

(** [rc in (0, 1)] *)
Definition in_0_1 (rc : Z) : bool := (rc =? 0) || (rc =? 1).

Section Program.

(** Pixel storage, font objects and rembg sessions belong to the libraries. *)
Variables Raster Font Session : Type.

(** A decoded PIL image: what the program reads of it ([mode], [size]) and
    its pixels.  PIL decodes lazily; a file whose pixels cannot be loaded is
    counted with the files [Image.open] rejects. *)
Record Image : Type := {
  mode : string;
  size : Z * Z;
  raster : Raster
}.

Definition width (img : Image) : Z := fst (size img).
Definition height (img : Image) : Z := snd (size img).

Definition rgba : Type := Z * Z * Z * Z.

(** ** The single-image state *)

Inductive dialog_kind : Type := ShowError | ShowWarning | ShowInfo.

(** The text of a message box: a literal, or an f-string around [str(e)]. *)
Inductive dialog_text : Type :=
| Literal (s : string)
| StrOf (e : exn)
| CannotRead (e : exn).

Record Dialog : Type := {
  kind : dialog_kind;
  title : string;
  text : dialog_text
}.

(** The attributes of [App] the actions read and write; [dialogs] records the
    [messagebox] calls, latest first, and [status] is the status line.
    [tempfiles] counts the temporary files the session has asked for: the
    system names each one afresh, so the next name depends on the count. *)
Record App : Type := {
  original_path : option string;
  original_bytes : option bytes;
  current_bytes : option bytes;
  current_image : option Image;
  current_exif : pyval;
  current_ext : string;
  var_striponly : bool;
  _rembg_session : option Session;
  status : string;
  dialogs : list Dialog;
  tempfiles : nat
}.

Definition set_current_bytes (v : option bytes) (s : App) : App :=
  {| original_path := original_path s; original_bytes := original_bytes s;
     current_bytes := v; current_image := current_image s;
     current_exif := current_exif s; current_ext := current_ext s;
     var_striponly := var_striponly s; _rembg_session := _rembg_session s;
     status := status s; dialogs := dialogs s; tempfiles := tempfiles s |}.

Definition set_current_image (v : option Image) (s : App) : App :=
  {| original_path := original_path s; original_bytes := original_bytes s;
     current_bytes := current_bytes s; current_image := v;
     current_exif := current_exif s; current_ext := current_ext s;
     var_striponly := var_striponly s; _rembg_session := _rembg_session s;
     status := status s; dialogs := dialogs s; tempfiles := tempfiles s |}.

Definition set_current_exif (v : pyval) (s : App) : App :=
  {| original_path := original_path s; original_bytes := original_bytes s;
     current_bytes := current_bytes s; current_image := current_image s;
     current_exif := v; current_ext := current_ext s;
     var_striponly := var_striponly s; _rembg_session := _rembg_session s;
     status := status s; dialogs := dialogs s; tempfiles := tempfiles s |}.

Definition set_current_ext (v : string) (s : App) : App :=
  {| original_path := original_path s; original_bytes := original_bytes s;
     current_bytes := current_bytes s; current_image := current_image s;
     current_exif := current_exif s; current_ext := v;
     var_striponly := var_striponly s; _rembg_session := _rembg_session s;
     status := status s; dialogs := dialogs s; tempfiles := tempfiles s |}.

Definition set_rembg_session (v : option Session) (s : App) : App :=
  {| original_path := original_path s; original_bytes := original_bytes s;
     current_bytes := current_bytes s; current_image := current_image s;
     current_exif := current_exif s; current_ext := current_ext s;
     var_striponly := var_striponly s; _rembg_session := v;
     status := status s; dialogs := dialogs s; tempfiles := tempfiles s |}.

Definition set_status (v : string) (s : App) : App :=
  {| original_path := original_path s; original_bytes := original_bytes s;
     current_bytes := current_bytes s; current_image := current_image s;
     current_exif := current_exif s; current_ext := current_ext s;
     var_striponly := var_striponly s; _rembg_session := _rembg_session s;
     status := v; dialogs := dialogs s; tempfiles := tempfiles s |}.

Definition set_tempfiles (v : nat) (s : App) : App :=
  {| original_path := original_path s; original_bytes := original_bytes s;
     current_bytes := current_bytes s; current_image := current_image s;
     current_exif := current_exif s; current_ext := current_ext s;
     var_striponly := var_striponly s; _rembg_session := _rembg_session s;
     status := status s; dialogs := dialogs s; tempfiles := v |}.

Definition add_dialog (d : Dialog) (s : App) : App :=
  {| original_path := original_path s; original_bytes := original_bytes s;
     current_bytes := current_bytes s; current_image := current_image s;
     current_exif := current_exif s; current_ext := current_ext s;
     var_striponly := var_striponly s; _rembg_session := _rembg_session s;
     status := status s; dialogs := d :: dialogs s; tempfiles := tempfiles s |}.

(** The ImageState of the session: byte buffer, decoded image, metadata and
    format hint. *)
Definition image_state (s : App) : option bytes * option Image * pyval * string :=
  (current_bytes s, current_image s, current_exif s, current_ext s).

Record World : Type := {
  (** [EXIFTOOL = find_exiftool()], fixed when the module is loaded. *)
  EXIFTOOL : option string;
  (** whether [import rembg] succeeded *)
  REMBG_OK : bool;
  (** [with tempfile.NamedTemporaryFile(delete=False, suffix=...) as t:
      t.write(data)], for the n-th temporary file the session asks for: the
      name of the file, or what creating, writing or closing it raises *)
  NamedTemporaryFile : nat -> string -> bytes -> outcome string;
  (** [subprocess.run(cmd, capture_output=True, text=True)] with the given
      bytes in the temporary input file: the completed process, and the
      content of the file at the [-o] path afterwards ([None] when
      [os.path.exists] is false there).  The input file is left as written. *)
  subprocess_run : list string -> bytes -> outcome (CompletedProcess * option bytes);
  json_loads : string -> outcome pyval;
  (** [Image.open(BytesIO(data))] *)
  Image_open : bytes -> outcome Image;
  (** [getattr(im, "_getexif", lambda: None)()] *)
  getexif : Image -> outcome (option pydict);
  (** [ExifTags.TAGS] and [ExifTags.GPSTAGS] *)
  TAGS : Z -> option string;
  GPSTAGS : Z -> option string;
  (** [rembg.new_session(name)] and [rembg.remove(data, session=...)] *)
  new_session : string -> outcome Session;
  remove : bytes -> Session -> outcome bytes;
  (** pixels of [img.convert(mode)], from the old mode to the new *)
  convert_raster : string -> string -> Raster -> outcome Raster;
  (** pixels of [Image.new(mode, size, color)] *)
  new_raster : Z * Z -> rgba -> outcome Raster;
  (** [ImageFont.truetype(name, size)] and [ImageFont.load_default()] *)
  truetype : string -> Z -> outcome Font;
  load_default : Font;
  (** [getattr(font, "size", None)] *)
  font_size : Font -> option Z;
  (** [hasattr(draw, "textlength")]; [int(draw.textlength(text, font))];
      [int(draw.textbbox((0,0), text, font)[2])] *)
  has_textlength : bool;
  textlength : string -> Font -> outcome Z;
  textbbox_right : string -> Font -> outcome Z;
  (** pixels after [draw.text(xy, text, fill, font)] *)
  draw_text : Raster -> Z * Z -> string -> rgba -> Font -> outcome Raster;
  (** pixels of [Image.alpha_composite(a, b)] for two matching images *)
  composite_raster : Raster -> Raster -> Raster;
  (** [img.save(buf, "PNG"); buf.getvalue()] *)
  save_png : Image -> outcome bytes;
  (** what refreshing the widgets does, given the attributes it reads: the
      preview ([im.copy()], [im.resize], Tk calls), the details pane
      ([json.dumps] over the metadata, Tk calls) and the button states.  Each
      leaves the attributes alone and, like every call, may raise. *)
  scale_preview : App -> outcome unit;
  render_details : App -> outcome unit;
  update_buttons : App -> outcome unit
}.

Variable w : World.

(** [if not EXIFTOOL]: the tool is there when the path is a non-empty string. *)
Definition exiftool : option string :=
  match EXIFTOOL w with
  | Some tool => if str_truthy tool then Some tool else None
  | None => None
  end.

(** ** Utilities *)

Definition open_image_any (raw : bytes) : result Image := call (Image_open w raw).

Definition to_png_bytes (img : Image) : result bytes := call (save_png w img).

(** [img.convert(m)]: an image of mode [m] and the same size, when PIL
    converts the pixels. *)
Definition convert (img : Image) (m : string) : result Image :=
  (r <- call (convert_raster w (mode img) m (raster img)) ;;
   Ok {| mode := m; size := size img; raster := r |})%result.

(** [Image.new(m, sz, color)] *)
Definition Image_new (m : string) (sz : Z * Z) (color : rgba) : result Image :=
  (r <- call (new_raster w sz color) ;;
   Ok {| mode := m; size := sz; raster := r |})%result.

Definition size_eqb (a b : Z * Z) : bool :=
  (fst a =? fst b) && (snd a =? snd b).

(** [Image.alpha_composite(im1, im2)]: PIL raises [ValueError] unless both
    images are RGBA and of one size. *)
Definition alpha_composite (im1 im2 : Image) : result Image :=
  if String.eqb (mode im1) "RGBA" && String.eqb (mode im2) "RGBA"
     && size_eqb (size im1) (size im2)
  then Ok {| mode := "RGBA"; size := size im1;
             raster := composite_raster w (raster im1) (raster im2) |}
  else Raise ValueError.

(** ** EXIF reading *)

Definition empty_dict : pyval := VDict [].

(** [n] is the number of temporary files asked for before the call.  The
    file is made before the [try]: what making it raises reaches the caller. *)
Definition exiftool_json_from_bytes (n : nat) (data : bytes) (hint_ext : string)
  : result pyval :=
  match exiftool with
  | None => Ok empty_dict
  | Some tool =>
      (temp_in <- call (NamedTemporaryFile w n hint_ext data) ;;
      try_finally
        (try_except
           (run <- call (subprocess_run w
                           [tool; "-j"; "-n"; "-api"; "largefilesupport=1"; temp_in] data) ;;
            let cp := fst run in
            if negb (in_0_1 (returncode cp)) then
              Raise (RuntimeError
                       (str_or (strip (stderr cp))
                          (str_or (strip (stdout cp))
                             ("exiftool exit " ++ str_of_int (returncode cp)))))
            else
              obj <- (if str_truthy (stdout cp) then call (json_loads w (stdout cp))
                      else Ok (VList [empty_dict])) ;;
              if truthy obj then py_index obj 0 else Ok empty_dict)%result
           (fun _ => Ok empty_dict))
        tt)%result
  end.

(** [table.get(k, str(k))] for a key of an EXIF dictionary. *)
Definition tag_name (table : Z -> option string) (k : pykey) : string :=
  match k with
  | KInt z => match table z with Some n => n | None => str_of_int z end
  | KStr s => s
  end.

(** [{table.get(k, str(k)): v for k, v in d.items()}] *)
Definition rename_keys (table : Z -> option string) (d : pydict) : pydict :=
  fold_left (fun acc kv => dict_set acc (KStr (tag_name table (fst kv))) (snd kv)) d [].

(** [as_float = lambda r: float(r[0]) / float(r[1]) if isinstance(r, tuple) else float(r)] *)
Definition as_float (r : pyval) : result float :=
  match r with
  | VTuple _ =>
      (r0 <- py_index r 0 ;;
       num <- py_float r0 ;;
       r1 <- py_index r 1 ;;
       den <- py_float r1 ;;
       float_div num den)%result
  | _ => py_float r
  end.

(** [_to_deg(v)]: [None] on any exception. *)
Definition _to_deg (v : pyval) : option float :=
  match
    (items <- py_iter v ;;
     match items with
     | [d; m; s] =>
         fd <- as_float d ;;
         fm <- as_float m ;;
         fs <- as_float s ;;
         Ok (fd + fm / 60 + fs / 3600)%float
     | _ => Raise ValueError
     end)%result
  with
  | Ok f => Some f
  | Raise _ => None
  end.

(** [(ref or default).upper() == letter] *)
Definition ref_is (ref : pyval) (default letter : string) : result bool :=
  let r := if truthy ref then ref else VStr default in
  match r with
  | VStr s => Ok (String.eqb (upper s) letter)
  | VBytes _ => Ok false
  | _ => Raise AttributeError
  end.

(** The GPS part of the fallback, from [gps = tagmap.get("GPSInfo")] on. *)
Definition decode_gps (tagmap : pydict) : result pydict :=
  match dict_get tagmap "GPSInfo" with
  | VDict ((_ :: _) as gps) =>
      let inv := rename_keys (GPSTAGS w) gps in
      let tagmap := dict_set tagmap (KStr "GPSLatitudeRef") (dict_get inv "GPSLatitudeRef") in
      let tagmap := dict_set tagmap (KStr "GPSLongitudeRef") (dict_get inv "GPSLongitudeRef") in
      let tagmap := dict_set tagmap (KStr "GPSLatitude") (dict_get inv "GPSLatitude") in
      let tagmap := dict_set tagmap (KStr "GPSLongitude") (dict_get inv "GPSLongitude") in
      match _to_deg (dict_get tagmap "GPSLatitude"),
            _to_deg (dict_get tagmap "GPSLongitude") with
      | Some lat, Some lon =>
          (south <- ref_is (dict_get tagmap "GPSLatitudeRef") "N" "S" ;;
           let lat := if south then (- lat)%float else lat in
           west <- ref_is (dict_get tagmap "GPSLongitudeRef") "E" "W" ;;
           let lon := if west then (- lon)%float else lon in
           let tagmap := dict_set tagmap (KStr "GPSLatitude") (VFloat lat) in
           let tagmap := dict_set tagmap (KStr "GPSLongitude") (VFloat lon) in
           Ok tagmap)%result
      | _, _ => Ok tagmap
      end
  | _ => Ok tagmap
  end.


Definition pil_exif_fallback (data : bytes) : result pydict :=
  try_except
    (im <- call (Image_open w data) ;;
     info <- call (getexif w im) ;;
     match info with
     | None | Some [] => Ok []
     | Some info =>
         let tagmap := rename_keys (TAGS w) info in
         decode_gps tagmap
     end)%result
    (fun _ => Ok []).

Definition read_exif_from_bytes (n : nat) (data : bytes) (hint_ext : string)
  : result pyval :=
  (d <- exiftool_json_from_bytes n data hint_ext ;;
   if truthy d then Ok d
   else (t <- pil_exif_fallback data ;; Ok (VDict t)))%result.

(** ** EXIF writing *)

Definition exit_message (cp : CompletedProcess) (cmd : list string) : string :=
  "exiftool exit " ++ str_of_int (returncode cp) ++ newline ++ newline
  ++ "Command:" ++ newline ++ repr_list cmd ++ newline ++ newline
  ++ "StdErr:" ++ newline ++ str_or (strip (stderr cp)) "(none)".

Definition exiftool_write_from_bytes
    (n : nat) (data : bytes) (args_list : list string) (hint_ext : string)
  : result bytes :=
  match exiftool with
  | None => Raise (RuntimeError "ExifTool not available")
  | Some tool =>
      (temp_in <- call (NamedTemporaryFile w n hint_ext data) ;;
      let temp_out := temp_in ++ ".out" in
      try_finally
        (let cmd := ([tool; "-m"; "-o"; temp_out] ++ args_list ++ [temp_in])%list in
         run <- call (subprocess_run w cmd data) ;;
         let '(cp, out_file) := run in
         if negb (in_0_1 (returncode cp)) then
           match out_file with
           | Some out => Ok out
           | None => Raise (RuntimeError (exit_message cp cmd))
           end
         else
           match out_file with
           | Some out => Ok out
           | None => Ok data
           end)%result
        tt)%result
  end.

(** ** Watermark *)

(** [try: font = ImageFont.truetype("arial.ttf", max(18, img.width//18))]
    [except Exception: font = ImageFont.load_default()] *)
Definition watermark_font (img : Image) : Font :=
  match truetype w "arial.ttf" (Z.max 18 (width img / 18)) with
  | Returns f => f
  | Fails _ => load_default w
  end.

(** [tw]: by [draw.textlength] where the drawing object has it, else by
    [draw.textbbox]. *)
Definition text_width (text : string) (font : Font) : outcome Z :=
  if has_textlength w then textlength w text font else textbbox_right w text font.

(** bottom-right, [(x, y)] *)
Definition text_origin (img : Image) (tw : Z) (font : Font) : Z * Z :=
  let th := match font_size w font with Some n => n | None => 16 end in
  (Z.max 8 (width img - tw - 20), Z.max 8 (height img - th - 20)).

(** Only the font lookup sits in a [try]: what converting, measuring or
    drawing raises reaches the caller. *)
Definition add_watermark (img : Image) (text : string) (opacity : Z) : result Image :=
  (img <- convert img "RGBA" ;;
   overlay <- Image_new "RGBA" (size img) (0, 0, 0, 0) ;;
   let font := watermark_font img in
   tw <- call (text_width text font) ;;
   let fill := (255, 255, 255, Z.max 10 (Z.min opacity 255)) in
   drawn <- call (draw_text w (raster overlay) (text_origin img tw font) text fill font) ;;
   let overlay := {| mode := mode overlay; size := size overlay; raster := drawn |} in
   alpha_composite img overlay)%result.

(** ** The actions *)

(** *** The monad of the methods *)

Definition M (A : Type) : Type := App -> result A * App.

Definition ret {A} (a : A) : M A := fun s => (Ok a, s).

Definition bind {A B} (m : M A) (k : A -> M B) : M B :=
  fun s =>
    match m s with
    | (Ok a, s') => k a s'
    | (Raise e, s') => (Raise e, s')
    end.

(** A call that does not touch the object. *)
Definition lift {A} (r : result A) : M A := fun s => (r, s).

Definition gets {A} (f : App -> A) : M A := fun s => (Ok (f s), s).

Definition modify (f : App -> App) : M unit := fun s => (Ok tt, f s).

(** [try: body  except Exception as e: handler(e)]: the handler runs in the
    state the body left behind. *)
Definition try_exceptM {A} (body : M A) (handler : exn -> M A) : M A :=
  fun s =>
    match body s with
    | (Ok a, s') => (Ok a, s')
    | (Raise e, s') => handler e s'
    end.

Declare Scope app_scope.
Delimit Scope app_scope with app.
Notation "x <- c1 ;; c2" := (bind c1 (fun x => c2))
  (at level 61, c1 at next level, right associativity) : app_scope.
Notation "c1 ;; c2" := (bind c1 (fun _ => c2))
  (at level 61, right associativity) : app_scope.

Definition messagebox (k : dialog_kind) (ttl : string) (msg : dialog_text) : M unit :=
  modify (add_dialog {| kind := k; title := ttl; text := msg |}).

(** A call of one of the two ExifTool wrappers.  When the tool is there the
    wrapper asks for a temporary file: the next one of the session. *)
Definition tempfile_used (s : App) : App :=
  match exiftool with
  | Some _ => set_tempfiles (S (tempfiles s)) s
  | None => s
  end.

Definition wrapper {A} (f : nat -> result A) : M A :=
  fun s => (f (tempfiles s), tempfile_used s).

(** The widgets (preview, details pane, button states) belong to Tk: a
    refresh reads the attributes and may raise. *)
Definition _scale_preview : M unit := fun s => (call (scale_preview w s), s).
Definition _render_details : M unit := fun s => (call (render_details w s), s).
Definition _update_buttons : M unit := fun s => (call (update_buttons w s), s).

Definition _set_from_bytes
    (data : bytes) (ext_hint : option string) (status_text : option string) : M unit :=
  (modify (set_current_bytes (Some data)) ;;
   fun s =>
     match call (Image_open w data) with
     | Raise e =>
         (messagebox ShowError "Open" (CannotRead e) ;;
          modify (set_current_image None) ;;
          modify (set_current_exif empty_dict) ;;
          _update_buttons) s
     | Ok im =>
         (modify (set_current_image (Some im)) ;;
          cur <- gets current_ext ;;
          modify (set_current_ext
                    (match ext_hint with
                     | Some h => str_or h cur
                     | None => cur
                     end)) ;;
          ext <- gets current_ext ;;
          ex <- wrapper (fun n => read_exif_from_bytes n data ext) ;;
          modify (set_current_exif ex) ;;
          _scale_preview ;;
          _render_details ;;
          match status_text with
          | Some t => if str_truthy t then modify (set_status t) else ret tt
          | None => ret tt
          end ;;
          _update_buttons) s
     end)%app.

Definition all_categories : list string := ["gps"; "device"; "datetime"].

(** [if not hasattr(self, "_rembg_session"): self._rembg_session = rembg.new_session("u2net")],
    then the attribute. *)
Definition rembg_session : M Session :=
  (have <- gets _rembg_session ;;
   match have with
   | Some sess => ret sess
   | None =>
       sess <- lift (call (new_session w "u2net")) ;;
       modify (set_rembg_session (Some sess)) ;;
       ret sess
   end)%app.

Definition action_safe : M unit :=
  (cur <- gets current_bytes ;;
   match cur with
   | None | Some [] => ret tt
   | Some _ =>
       strip_only <- gets var_striponly ;;
       if strip_only : bool then
         match exiftool with
         | None =>
             messagebox ShowWarning "ExifTool required"
               (Literal "Strip-only SAFE needs ExifTool.")
         | Some _ =>
             try_exceptM
               (let args := build_strip_args all_categories in
                cur <- gets current_bytes ;;
                ext <- gets current_ext ;;
                data <- wrapper (fun n => exiftool_write_from_bytes n
                                  (match cur with Some b => b | None => [] end) args ext) ;;
                ext <- gets current_ext ;;
                _set_from_bytes data (Some ext)
                  (Some "SAFE (strip-only) created and set as current."))
               (fun e => messagebox ShowError "SAFE (strip-only)" (StrOf e))
         end
       else
         try_exceptM
           (cur <- gets current_bytes ;;
            let data := match cur with Some b => b | None => [] end in
            ext_hint <- gets current_ext ;;
            staged <- (if REMBG_OK w then
                         sess <- rembg_session ;;
                         data <- lift (call (remove w data sess)) ;;
                         ret (data, ".png")
                       else ret (data, ext_hint)) ;;
            let '(data, ext_hint) := staged in
            data <- match exiftool with
                    | Some _ =>
                        let args := build_strip_args all_categories in
                        wrapper (fun n => exiftool_write_from_bytes n data args ext_hint)
                    | None => ret data
                    end ;;
            img <- lift (open_image_any data) ;;
            img <- lift (add_watermark img "SAFE" 160) ;;
            png <- lift (to_png_bytes img) ;;
            _set_from_bytes png (Some ".png")
              (Some "SAFE copy created (full) and set as current."))
           (fun e => messagebox ShowError "SAFE (full)" (StrOf e))
   end)%app.

End Program.

(** ** Summary *)

Record ExifSummary : Type := {
  gps : option (float * float);
  make : pyval;
  model : pyval;
  owner : pyval;
  software : pyval;
  captured : pyval;
  (** each entry is the pair an f-string renders as [key: value] *)
  serials : list (string * pyval)
}.

(** Truth value of [str(v).strip()].  [str] of anything that is not a [str]
    (a number, [None], a container, [bytes]) contains a character that is not
    white space. *)
Definition str_nonblank (v : pyval) : bool :=
  match v with
  | VStr s => str_truthy (strip s)
  | _ => true
  end.

(** The local function [gv] of [summarize_exif]. *)
Fixpoint gv (ex : pydict) (keys : list string) : pyval :=
  match keys with
  | [] => VNone
  | k :: rest =>
      if dict_mem ex k && str_nonblank (dict_get ex k) then dict_get ex k
      else gv ex rest
  end.

(** [v is not None] *)
Definition not_none (v : pyval) : bool :=
  match v with VNone => false | _ => true end.

Definition serial_entry (kv : pykey * pyval) : list (string * pyval) :=
  match fst kv with
  | KStr k =>
      if str_contains "serial" (lower k) && str_nonblank (snd kv)
      then [(after_last ":" k, snd kv)] else []
  | KInt z =>
      (* [str(k)] is a numeral: the test fails before [k.split] is reached *)
      []
  end.

Definition summarize_exif (ex : pydict) : ExifSummary :=
  let lat := gv ex ["GPSLatitude"; "EXIF:GPSLatitude"] in
  let lon := gv ex ["GPSLongitude"; "EXIF:GPSLongitude"] in
  let gps :=
    if not_none lat && not_none lon then
      match (la <- py_float lat ;; lo <- py_float lon ;; Ok (la, lo))%result with
      | Ok both => Some both
      | Raise _ => None
      end
    else None in
  {| gps := gps;
     make := gv ex ["Make"; "EXIF:Make"; "XMP:Make"];
     model := gv ex ["Model"; "EXIF:Model"; "XMP:Model"];
     owner := gv ex ["Artist"; "EXIF:Artist"; "XMP:Creator"; "XMP:OwnerName";
                     "Microsoft:XPAuthor"];
     software := gv ex ["Software"; "EXIF:Software"; "XMP:CreatorTool"];
     captured := gv ex ["DateTimeOriginal"; "EXIF:DateTimeOriginal"; "CreateDate";
                        "EXIF:CreateDate"];
     serials := flat_map serial_entry ex |}.

(** ** Strip categories, as the specification names them *)

Inductive StripCategory : Type := Gps | Device | Datetime.

Definition category_name (c : StripCategory) : string :=
  match c with
  | Gps => "gps"
  | Device => "device"
  | Datetime => "datetime"
  end.

Definition directives (c : StripCategory) : list string :=
  match c with
  | Gps => GPS_ARGS
  | Device => DEVICE_ARGS
  | Datetime => DATETIME_ARGS
  end.

(** The categories a request names, in the fixed order gps, device,
    datetime. *)
Definition selected (categories : list string) : list StripCategory :=
  filter (fun c => str_in (category_name c) categories) [Gps; Device; Datetime].

(** The directive that clears one tag. *)
Definition clear_tag (tag : string) : string := "-" ++ tag ++ "=".

(** The two failures of the writer, under the names the specification gives
    them.  In the program both are [RuntimeError]s, told apart by their
    message. *)
Definition ToolUnavailable : exn := RuntimeError "ExifTool not available".

Definition ToolExecutionError (cp : CompletedProcess) (cmd : list string) : exn :=
  RuntimeError (exit_message cp cmd).

(** ** GPS blocks *)




(** ** The full pipeline, stage by stage as the specification lists it *)

Section Stages.

Variables Raster Font Session : Type.
Variable w : World Raster Font Session.

(** (a) If background removal is available, run it (on the session at hand,
    or a new one) and switch the working hint to the PNG extension. *)
Definition stage_background (have : option Session) (data : bytes) (ext : string)
  : result (bytes * string) :=
  if REMBG_OK w then
    (sess <- match have with
             | Some sess => Ok sess
             | None => call (new_session w "u2net")
             end ;;
     out <- call (remove w data sess) ;;
     Ok (out, ".png"))%result
  else Ok (data, ext).

(** (b) If the metadata tool is available, run the writer with the
    directives of all three categories; [n] temporary files were asked for
    before. *)
Definition stage_strip (n : nat) (work : bytes * string) : result (bytes * string) :=
  match exiftool w with
  | Some _ =>
      (out <- exiftool_write_from_bytes w n (fst work)
                (GPS_ARGS ++ DEVICE_ARGS ++ DATETIME_ARGS)%list (snd work) ;;
       Ok (out, snd work))%result
  | None => Ok work
  end.

(** (c) Always: decode, watermark, re-encode as PNG. *)
Definition stage_watermark (work : bytes * string) : result (bytes * string) :=
  (img <- open_image_any w (fst work) ;;
   marked <- add_watermark w img "SAFE" 160 ;;
   png <- to_png_bytes w marked ;;
   Ok (png, ".png"))%result.

Definition full_pipeline (n : nat) (have : option Session) (data : bytes) (ext : string)
  : result (bytes * string) :=
  (a <- stage_background have data ext ;;
   b <- stage_strip n a ;;
   stage_watermark b)%result.

End Stages.

(** ** Sample worlds *)

(** The entries of PIL's [ExifTags.GPSTAGS] and [ExifTags.TAGS] the examples
    use, under their numbers in the EXIF standard. *)
Definition sample_gpstags (z : Z) : option string :=
  match z with
  | 1 => Some "GPSLatitudeRef"
  | 2 => Some "GPSLatitude"
  | 3 => Some "GPSLongitudeRef"
  | 4 => Some "GPSLongitude"
  | _ => None
  end.

Definition sample_tags (z : Z) : option string :=
  match z with
  | 271 => Some "Make"
  | 272 => Some "Model"
  | 34853 => Some "GPSInfo"
  | _ => None
  end.

Definition sample_image : Image unit :=
  {| mode := "RGB"; size := (640, 480); raster := tt |}.

(** A world for examples.  ExifTool is on the path and exits with status 0;
    it leaves [written] at the output path and prints [report].  Temporary
    files are numbered; one cannot be made when the suffix names a
    directory, which does not exist.  PIL opens exactly the byte strings
    [opens] accepts (as images without EXIF) and, as it does, refuses to
    measure a text of several lines; rembg is not installed. *)
Definition sample_world (written : option bytes) (report : string)
    (opens : bytes -> bool) : World unit unit unit :=
  {| EXIFTOOL := Some "exiftool";
     REMBG_OK := false;
     NamedTemporaryFile := fun n suffix _ =>
       if str_contains "/" suffix then Fails "FileNotFoundError"
       else Returns ("/tmp/tmp" ++ str_of_int (Z.of_nat n) ++ suffix);
     subprocess_run := fun _ _ =>
       Returns ({| returncode := 0; stdout := report; stderr := EmptyString |}, written);
     json_loads := fun _ => Fails "JSONDecodeError";
     Image_open := fun data =>
       if opens data then Returns sample_image else Fails "UnidentifiedImageError";
     getexif := fun _ => Returns None;
     TAGS := sample_tags;
     GPSTAGS := sample_gpstags;
     new_session := fun _ => Fails "ModuleNotFoundError";
     remove := fun _ _ => Fails "ModuleNotFoundError";
     convert_raster := fun _ _ r => Returns r;
     new_raster := fun _ _ => Returns tt;
     truetype := fun _ _ => Fails "OSError";
     load_default := tt;
     font_size := fun _ => None;
     has_textlength := true;
     textlength := fun text _ =>
       if str_contains newline text then Fails "ValueError"
       else Returns (6 * Z.of_nat (String.length text));
     textbbox_right := fun text _ => Returns (6 * Z.of_nat (String.length text));
     draw_text := fun r _ _ _ _ => Returns r;
     composite_raster := fun a _ => a;
     save_png := fun _ => Returns [Byte.x89; Byte.x50; Byte.x4e; Byte.x47];
     scale_preview := fun _ => Returns tt;
     render_details := fun _ => Returns tt;
     update_buttons := fun _ => Returns tt |}.


(** The same world on a disk that fills up: the temporary files from the
    [k]-th on cannot be written. *)
Definition with_full_disk {Raster Font Session : Type} (k : nat)
    (w : World Raster Font Session) : World Raster Font Session :=
  {| EXIFTOOL := EXIFTOOL w;
     REMBG_OK := REMBG_OK w;
     NamedTemporaryFile := fun n suffix data =>
       if (k <=? n)%nat then Fails "OSError" else NamedTemporaryFile w n suffix data;
     subprocess_run := subprocess_run w;
     json_loads := json_loads w;
     Image_open := Image_open w;
     getexif := getexif w;
     TAGS := TAGS w;
     GPSTAGS := GPSTAGS w;
     new_session := new_session w;
     remove := remove w;
     convert_raster := convert_raster w;
     new_raster := new_raster w;
     truetype := truetype w;
     load_default := load_default w;
     font_size := font_size w;
     has_textlength := has_textlength w;
     textlength := textlength w;
     textbbox_right := textbbox_right w;
     draw_text := draw_text w;
     composite_raster := composite_raster w;
     save_png := save_png w;
     scale_preview := scale_preview w;
     render_details := render_details w;
     update_buttons := update_buttons w |}.

(** PIL opens what starts like a JPEG or a PNG file. *)
Definition known_magic (data : bytes) : bool :=
  match data with
  | Byte.xff :: Byte.xd8 :: _ => true
  | Byte.x89 :: Byte.x50 :: _ => true
  | _ => false
  end.

(** ** Outcomes of a SAFE run *)

Definition open_dialog (d : string) : Dialog :=
  {| kind := ShowError; title := "Open"; text := CannotRead (External d) |}.

Definition stage_dialog (ttl : string) (e : exn) : Dialog :=
  {| kind := ShowError; title := ttl; text := StrOf e |}.

Definition tool_required : Dialog :=
  {| kind := ShowWarning; title := "ExifTool required";
     text := Literal "Strip-only SAFE needs ExifTool." |}.

Definition strip_only_status : string := "SAFE (strip-only) created and set as current.".
Definition full_status : string := "SAFE copy created (full) and set as current.".

(** [ext_hint or self.current_ext] *)
Definition hinted (h : option string) (cur : string) : string :=
  match h with
  | Some x => str_or x cur
  | None => cur
  end.

Section Outcomes.

Variables Raster Font Session : Type.
Variable w : World Raster Font Session.

(** The state once the rembg session of a full run is in place. *)
Definition with_session (s : App Raster Session) : App Raster Session :=
  if REMBG_OK w then
    match _rembg_session s with
    | Some _ => s
    | None =>
        match new_session w "u2net" with
        | Returns sess => set_rembg_session (Some sess) s
        | Fails _ => s
        end
    end
  else s.

(** The state a full run has reached when its stages are through: the rembg
    session is in place, and the strip stage has asked for its temporary
    file, unless background removal raised before it. *)
Definition staged (s : App Raster Session) (data : bytes) : App Raster Session :=
  match stage_background w (_rembg_session s) data (current_ext s) with
  | Ok _ => tempfile_used w (with_session s)
  | Raise _ => with_session s
  end.

(** The metadata a session holds once [_set_from_bytes] has tried to read
    that of [data]: what the read returns; when the read raises, the
    assignment is not reached and the metadata of before stays. *)
Definition metadata (s : App Raster Session) (data : bytes) (ext : string) : pyval :=
  match read_exif_from_bytes w (tempfiles s) data ext with
  | Ok ex => ex
  | Raise _ => current_exif s
  end.

(** The bytes the stages of a SAFE run produce from the current bytes
    [data], before they are made current: the writer's output in strip-only
    mode, the watermarked PNG in full mode. *)
Definition safe_result (s : App Raster Session) (data : bytes) : result bytes :=
  if var_striponly s then
    exiftool_write_from_bytes w (tempfiles s) data (build_strip_args all_categories)
      (current_ext s)
  else
    (a <- stage_background w (_rembg_session s) data (current_ext s) ;;
     b <- stage_strip w (tempfiles s) a ;;
     c <- stage_watermark w b ;;
     Ok (fst c))%result.

End Outcomes.

Section Caught.

Variables Raster Font Session : Type.
Variable w : World Raster Font Session.

(** The [except Exception as e: messagebox.showerror(title, str(e))] clause
    of [action_safe] around a body. *)
Definition caught (ttl : string) (body : M Raster Session unit) : M Raster Session unit :=
  try_exceptM body (fun e => messagebox ShowError ttl (StrOf e)).

(** The widgets refresh without raising. *)
Definition refresh_succeeds : Prop :=
  forall s, scale_preview w s = Returns tt
            /\ render_details w s = Returns tt
            /\ update_buttons w s = Returns tt.

End Caught.

(** A session as [action_open] leaves it: [img] is what PIL made of the
    file, [None] when it could not open it. *)
Definition sample_state (strip_only : bool) (data : bytes)
    (img : option (Image unit)) (ext : string) : App unit unit :=
  {| original_path := Some ("photo" ++ ext);
     original_bytes := Some data;
     current_bytes := Some data;
     current_image := img;
     current_exif := empty_dict;
     current_ext := ext;
     var_striponly := strip_only;
     _rembg_session := None;
     status := match img with Some _ => "Loaded." | None => "Ready" end;
     dialogs := [];
     tempfiles := 0 |}.

Definition jpeg_bytes : bytes := [Byte.xff; Byte.xd8; Byte.xff; Byte.xe1].
Definition png_bytes : bytes := [Byte.x89; Byte.x50; Byte.x4e; Byte.x47].
Definition heic_bytes : bytes := [Byte.x00; Byte.x00; Byte.x00; Byte.x18; Byte.x66].
Definition heic_stripped : bytes := [Byte.x00; Byte.x00; Byte.x00; Byte.x18].

(** The tags the three directive lists clear. *)
Definition all_tags : list string :=
  ["GPS:all"; "Make"; "Model"; "SerialNumber"; "BodySerialNumber";
   "CameraSerialNumber"; "LensSerialNumber"; "LensModel"; "LensID"; "Artist";
   "OwnerName"; "DateTimeOriginal"; "CreateDate"; "ModifyDate"; "SubSecTime*";
   "OffsetTime*"].

(** ** The other actions *)

(** [s.split(sep)] for a one-character separator. *)
Fixpoint split_char (sep : ascii) (s : string) : list string :=
  match s with
  | EmptyString => [EmptyString]
  | String c t =>
      if Ascii.eqb c sep then EmptyString :: split_char sep t
      else match split_char sep t with
           | x :: rest => String c x :: rest
           | [] => [String c EmptyString]
           end
  end.

(** [os.path.splitext(p)[1]], over the separators of the platform ([os.sep]
    and [os.altsep]): the text from the last dot on, when that dot lies in
    the last component of the path and something other than dots comes
    before it there; the empty string otherwise. *)
Definition is_sep (seps : list ascii) (c : ascii) : bool :=
  existsb (Ascii.eqb c) seps.

Fixpoint has_sep (seps : list ascii) (s : string) : bool :=
  match s with
  | EmptyString => false
  | String c t => is_sep seps c || has_sep seps t
  end.

(** what follows the last separator *)
Fixpoint last_component (seps : list ascii) (s : string) : string :=
  match s with
  | EmptyString => EmptyString
  | String c t =>
      if has_sep seps t then last_component seps t
      else if is_sep seps c then t else s
  end.

(** the text before the last dot and the text from it on; [None] without a dot *)
Fixpoint split_last_dot (s : string) : option (string * string) :=
  match s with
  | EmptyString => None
  | String c t =>
      match split_last_dot t with
      | Some (stem, ext) => Some (String c stem, ext)
      | None => if Ascii.eqb c "." then Some (EmptyString, s) else None
      end
  end.

Fixpoint all_dots (s : string) : bool :=
  match s with
  | EmptyString => true
  | String c t => Ascii.eqb c "." && all_dots t
  end.

Definition splitext_ext (seps : list ascii) (p : string) : string :=
  match split_last_dot (last_component seps p) with
  | Some (stem, ext) => if all_dots stem then EmptyString else ext
  | None => EmptyString
  end.

Definition posix_seps : list ascii := ["/"%char].
Definition windows_seps : list ascii := ["\"%char; "/"%char].

Section Actions.

Variables Raster Font Session : Type.
Variable w : World Raster Font Session.

Declare Scope action_scope.
Delimit Scope action_scope with act.
Notation "x <- c1 ;; c2" := (bind c1 (fun x => c2))
  (at level 61, c1 at next level, right associativity) : action_scope.

(** JPEG cannot save RGBA/LA/P modes. *)
Definition ensure_rgb (img : Image Raster) : result (Image Raster) :=
  if str_in (mode img) ["RGBA"; "LA"; "P"] then convert w img "RGB" else Ok img.

(** [os.path.splitext(self.original_path or "")[1].lower()] *)
Definition original_ext (seps : list ascii) (s : App Raster Session) : string :=
  lower (splitext_ext seps
           (match original_path s with Some p => p | None => EmptyString end)).

Definition action_revert (seps : list ascii) : M Raster Session unit :=
  (orig <- gets (@original_bytes Raster Session) ;;
   match orig with
   | None => ret tt
   | Some data =>
       hint <- gets (original_ext seps) ;;
       _set_from_bytes w data (Some hint) (Some "Reverted.")
   end)%act.

Definition action_remove_bg : M Raster Session unit :=
  (cur <- gets (@current_bytes Raster Session) ;;
   match REMBG_OK w, cur with
   | false, _ | _, None | _, Some [] => ret tt
   | true, Some (_ :: _) =>
       try_exceptM
         (sess <- rembg_session w ;;
          cur <- gets (@current_bytes Raster Session) ;;
          out <- lift (call (remove w (match cur with Some b => b | None => [] end) sess)) ;;
          _set_from_bytes w out (Some ".png") (Some "Background removed."))
         (fun e => messagebox ShowError "Remove Background" (StrOf e))
   end)%act.

Definition action_strip_all : M Raster Session unit :=
  (cur <- gets (@current_bytes Raster Session) ;;
   match cur with
   | None | Some [] => ret tt
   | Some data =>
       try_exceptM
         (opened <- lift (open_image_any w data) ;;
          img <- lift (convert w opened "RGBA") ;;
          png <- lift (to_png_bytes w img) ;;
          _set_from_bytes w png (Some ".png")
            (Some "Stripped ALL metadata (PNG re-encode)."))
         (fun e => messagebox ShowError "Strip ALL" (StrOf e))
   end)%act.

Definition action_strip (kind : string) : M Raster Session unit :=
  (cur <- gets (@current_bytes Raster Session) ;;
   match cur with
   | None | Some [] => ret tt
   | Some data =>
       match exiftool w with
       | None =>
           messagebox ShowWarning "ExifTool required"
             (Literal "Install/locate ExifTool to strip selectively.")
       | Some _ =>
           try_exceptM
             (let args := build_strip_args (split_char "," kind) in
              ext <- gets (@current_ext Raster Session) ;;
              out <- wrapper w (fun n => exiftool_write_from_bytes w n data args ext) ;;
              ext <- gets (@current_ext Raster Session) ;;
              _set_from_bytes w out (Some ext) (Some ("Stripped: " ++ kind ++ ".")))
             (fun e => messagebox ShowError "Strip metadata" (StrOf e))
       end
   end)%act.

Definition watermark_status : string :=
  "Watermark " ++ String dquote ("SAFE" ++ String dquote " added.").

Definition action_watermark : M Raster Session unit :=
  (cur <- gets (@current_bytes Raster Session) ;;
   match cur with
   | None | Some [] => ret tt
   | Some data =>
       try_exceptM
         (img <- lift (open_image_any w data) ;;
          img <- lift (add_watermark w img "SAFE" 160) ;;
          png <- lift (to_png_bytes w img) ;;
          _set_from_bytes w png (Some ".png") (Some watermark_status))
         (fun e => messagebox ShowError "Watermark" (StrOf e))
   end)%act.

Definition strip_tool_required : Dialog :=
  {| kind := ShowWarning; title := "ExifTool required";
     text := Literal "Install/locate ExifTool to strip selectively." |}.

(** What no action touches: the snapshot of the file as it was opened, and
    the strip-only switch. *)
Definition keeps_snapshot (s s' : App Raster Session) : Prop :=
  original_bytes s' = original_bytes s
  /\ original_path s' = original_path s
  /\ var_striponly s' = var_striponly s.

(** An action leaves the ImageState as it was, or as [_set_from_bytes]
    makes it for some bytes, from the state the action had reached. *)
Definition installs (s s' : App Raster Session) : Prop :=
  image_state s' = image_state s
  \/ exists data h st s0,
       image_state s' = image_state (snd (_set_from_bytes w data h st s0)).

(** The decoded image is that of the current bytes: no image when there are
    no bytes or PIL cannot open them.  The metadata is left out: when reading
    it raises inside [_set_from_bytes], the bytes and the image are new and
    the metadata is still that of the bytes before. *)
Definition image_in_step (s : App Raster Session) : Prop :=
  current_image s
  = match current_bytes s with
    | None => None
    | Some data =>
        match Image_open w data with
        | Returns im => Some im
        | Fails _ => None
        end
    end.

End Actions.

(** The same world without ExifTool. *)
Definition without_exiftool {Raster Font Session : Type}
    (w : World Raster Font Session) : World Raster Font Session :=
  {| EXIFTOOL := None;
     REMBG_OK := REMBG_OK w;
     NamedTemporaryFile := NamedTemporaryFile w;
     subprocess_run := subprocess_run w;
     json_loads := json_loads w;
     Image_open := Image_open w;
     getexif := getexif w;
     TAGS := TAGS w;
     GPSTAGS := GPSTAGS w;
     new_session := new_session w;
     remove := remove w;
     convert_raster := convert_raster w;
     new_raster := new_raster w;
     truetype := truetype w;
     load_default := load_default w;
     font_size := font_size w;
     has_textlength := has_textlength w;
     textlength := textlength w;
     textbbox_right := textbbox_right w;
     draw_text := draw_text w;
     composite_raster := composite_raster w;
     save_png := save_png w;
     scale_preview := scale_preview w;
     render_details := render_details w;
     update_buttons := update_buttons w |}.


(** ** Opening a file and converting *)

(** [s.replace(old, new)] for a non-empty [old]: occurrences are replaced
    from the left, without overlap.  [skip] counts the characters of a match
    still to pass over. *)
Fixpoint replace_from (old new : string) (skip : nat) (s : string) : string :=
  match s with
  | EmptyString => EmptyString
  | String c t =>
      match skip with
      | S k => replace_from old new k t
      | O =>
          if prefix_of old s
          then new ++ replace_from old new (Nat.pred (String.length old)) t
          else String c (replace_from old new 0 t)
      end
  end.

Definition replace (old new s : string) : string := replace_from old new 0 s.

Section Files.

Variables Raster Font Session : Type.
Variable w : World Raster Font Session.

(** What lies outside the program: the answer of the file dialog (the empty
    string when it is cancelled), the file system, and PIL's encoders. *)
Variable askopenfilename : outcome string.
Variable read_bytes : string -> outcome bytes.
Variable save : Image Raster -> string -> outcome bytes.

Declare Scope action_scope.
Delimit Scope action_scope with act.
Notation "x <- c1 ;; c2" := (bind c1 (fun x => c2))
  (at level 61, c1 at next level, right associativity) : action_scope.
Notation "c1 ;; c2" := (bind c1 (fun _ => c2))
  (at level 61, right associativity) : action_scope.

Definition read_file_bytes (path : string) : result bytes := call (read_bytes path).

Definition set_original_path (v : option string) (s : App Raster Session)
    : App Raster Session :=
  {| original_path := v; original_bytes := original_bytes s;
     current_bytes := current_bytes s; current_image := current_image s;
     current_exif := current_exif s; current_ext := current_ext s;
     var_striponly := var_striponly s; _rembg_session := _rembg_session s;
     status := status s; dialogs := dialogs s; tempfiles := tempfiles s |}.

Definition set_original_bytes (v : option bytes) (s : App Raster Session)
    : App Raster Session :=
  {| original_path := original_path s; original_bytes := v;
     current_bytes := current_bytes s; current_image := current_image s;
     current_exif := current_exif s; current_ext := current_ext s;
     var_striponly := var_striponly s; _rembg_session := _rembg_session s;
     status := status s; dialogs := dialogs s; tempfiles := tempfiles s |}.

Definition action_open (seps : list ascii) : M Raster Session unit :=
  (fp <- lift (call askopenfilename) ;;
   if negb (str_truthy fp) then ret tt
   else
     match read_file_bytes fp with
     | Raise e => messagebox ShowError "Open" (StrOf e)
     | Ok raw =>
         modify (set_original_path (Some fp)) ;;
         modify (set_original_bytes (Some raw)) ;;
         modify (set_current_ext (str_or (lower (splitext_ext seps fp)) ".jpg")) ;;
         ext <- gets (@current_ext Raster Session) ;;
         _set_from_bytes w raw (Some ext) (Some "Loaded.")
     end)%act.

(** [(self.fmt_var.get() or "PNG").upper().replace("JPG","JPEG")] *)
Definition format_name (fmt_var : string) : string :=
  replace "JPG" "JPEG" (upper (str_or fmt_var "PNG")).

Definition format_ext (fmt : string) : string :=
  if String.eqb fmt "JPEG" then ".jpeg" else "." ++ lower fmt.

(** [fmt_var] is the choice in the option menu. *)
Definition action_convert (fmt_var : string) : M Raster Session unit :=
  (cur <- gets (@current_bytes Raster Session) ;;
   match cur with
   | None | Some [] => ret tt
   | Some data =>
       let fmt := format_name fmt_var in
       try_exceptM
         (img <- lift (open_image_any w data) ;;
          img <- lift (if String.eqb fmt "JPEG" then ensure_rgb w img else Ok img) ;;
          out <- lift (call (save img fmt)) ;;
          let ext := format_ext fmt in
          _set_from_bytes w out (Some ext) (Some ("Converted to " ++ fmt ++ ".")))
         (fun e => messagebox ShowError "Convert" (StrOf e))
   end)%act.

End Files.

(** The hint [action_open] takes from a path: [ext.lower() or ".jpg"]. *)
Definition path_hint (seps : list ascii) (fp : string) : string :=
  str_or (lower (splitext_ext seps fp)) ".jpg".

(** ** ExifTool discovery *)

Section Discovery.

(** The process and the file system: [sys._MEIPASS] when PyInstaller set it,
    [os.path.abspath(".")], [os.path.join], [os.path.isabs],
    [os.path.exists] and [shutil.which]. *)
Variable _MEIPASS : option string.
Variable abspath_dot : string.
Variable path_join : list string -> string.
Variable isabs : string -> bool.
Variable path_exists : string -> bool.
Variable which : string -> option string.

Definition resource_path (parts : list string) : string :=
  let base := match _MEIPASS with Some b => b | None => abspath_dot end in
  path_join (base :: parts).

Definition candidates : list string :=
  [resource_path ["tools"; "exiftool.exe"];
   path_join ["tools"; "exiftool.exe"];
   path_join ["tools"; "exiftool_files"; "exiftool.exe"];
   "exiftool"].

(** What one candidate yields: itself when it is an absolute path that
    exists, else a non-empty answer of [shutil.which]. *)
Definition probe (c : string) : option string :=
  if isabs c && path_exists c then Some c
  else match which c with
       | Some p => if str_truthy p then Some p else None
       | None => None
       end.

Fixpoint first_probe (cs : list string) : option string :=
  match cs with
  | [] => None
  | c :: rest =>
      match probe c with
      | Some p => Some p
      | None => first_probe rest
      end
  end.

Definition find_exiftool : option string := first_probe candidates.

End Discovery.

(** ** Samples for opening and converting *)

(** The session as [__init__] leaves it. *)
Definition initial_state : App unit unit :=
  {| original_path := None;
     original_bytes := None;
     current_bytes := None;
     current_image := None;
     current_exif := empty_dict;
     current_ext := ".jpg";
     var_striponly := false;
     _rembg_session := None;
     status := "Ready";
     dialogs := [];
     tempfiles := 0 |}.

Definition jfif_bytes : bytes := [Byte.xff; Byte.xd8; Byte.xff; Byte.xe0].

(** An encoder that knows PNG and JPEG and, as PIL, refuses to write an
    image with alpha or a palette as JPEG. *)
Definition sample_save (img : Image unit) (fmt : string) : outcome bytes :=
  if String.eqb fmt "JPEG" then
    if str_in (mode img) ["RGBA"; "LA"; "P"] then Fails "OSError" else Returns jfif_bytes
  else if String.eqb fmt "PNG" then Returns [Byte.x89; Byte.x50; Byte.x4e; Byte.x47]
  else Fails "KeyError".

(** One that writes anything as JPEG. *)
Definition lenient_save (img : Image unit) (fmt : string) : outcome bytes :=
  if String.eqb fmt "JPEG" then Returns jfif_bytes else sample_save img fmt.

(** A machine where the bundled copy is missing and ExifTool is on the path. *)
Definition sample_which (c : string) : option string :=
  if String.eqb c "exiftool" then Some "/usr/bin/exiftool" else None.

Definition sample_join (parts : list string) : string := join "/" parts.

Definition sample_isabs (p : string) : bool := prefix_of "/" p.
(** * Properties *)

(** ** Strip-argument builder *)

Lemma str_in_In x l : str_in x l = true <-> In x l.
Proof.
  unfold str_in. rewrite existsb_exists. split.
  - intros [y [Hy Heq]]. apply String.eqb_eq in Heq. now subst.
  - intros H. exists x. split; [assumption | apply String.eqb_refl].
Qed.

Lemma str_in_ext x l1 l2 :
  (In x l1 <-> In x l2) -> str_in x l1 = str_in x l2.
Proof.
  intros H.
  destruct (str_in x l1) eqn:E1, (str_in x l2) eqn:E2; try reflexivity.
  - apply str_in_In, H, str_in_In in E1. congruence.
  - apply str_in_In, H, str_in_In in E2. congruence.
Qed.

Lemma build_strip_args_selected categories :
  build_strip_args categories = concat (map directives (selected categories)).
Proof.
  unfold build_strip_args, selected. cbn [filter category_name].
  destruct (str_in "gps" categories), (str_in "device" categories),
    (str_in "datetime" categories); reflexivity.
Qed.

(** C4.  Whatever the order of the request, whatever repetitions and unknown
    names it holds, [build_strip_args] returns the directive lists of the
    categories it names, concatenated in the order gps, device, datetime; its
    length is the sum of their lengths; and two requests that name the same
    categories get the same list. *)
Theorem build_strip_args_order (categories : list string) :
  build_strip_args categories = concat (map directives (selected categories))
  /\ (forall c, In c (selected categories) <-> In (category_name c) categories)
  /\ length (build_strip_args categories)
     = list_sum (map (fun c => length (directives c)) (selected categories))
  /\ (forall other,
        (forall c, In (category_name c) other <-> In (category_name c) categories) ->
        build_strip_args other = build_strip_args categories)
  /\ (forall unknown rest1 rest2,
        categories = (rest1 ++ unknown :: rest2)%list ->
        (forall c, category_name c <> unknown) ->
        build_strip_args categories = build_strip_args (rest1 ++ rest2)%list).
Proof.
  assert (Hext : forall l1 l2,
             (forall c, In (category_name c) l1 <-> In (category_name c) l2) ->
             build_strip_args l1 = build_strip_args l2).
  { intros l1 l2 H. unfold build_strip_args.
    rewrite (str_in_ext "gps" l1 l2 (H Gps)).
    rewrite (str_in_ext "device" l1 l2 (H Device)).
    rewrite (str_in_ext "datetime" l1 l2 (H Datetime)).
    reflexivity. }
  split; [apply build_strip_args_selected|].
  split.
  { intros c. unfold selected. rewrite filter_In, str_in_In.
    split; [tauto|]. intros H. split; [|assumption].
    destruct c; simpl; tauto. }
  split.
  { rewrite build_strip_args_selected. unfold selected. cbn [filter category_name].
    destruct (str_in "gps" categories), (str_in "device" categories),
      (str_in "datetime" categories); reflexivity. }
  split.
  { intros other H. apply Hext, H. }
  intros unknown rest1 rest2 -> Hunknown. apply Hext. intros c.
  rewrite !in_app_iff. simpl. specialize (Hunknown c).
  split; [intros [H|[H|H]]|intros [H|H]]; auto. congruence.
Qed.

Lemma build_strip_args_shuffle :
  build_strip_args ["datetime"; "exif"; "gps"; "datetime"]
  = (GPS_ARGS ++ DATETIME_ARGS)%list.
Proof. reflexivity. Qed.

(** ** The device directives *)

(** C5, as the specification words it: nine directives.  The list has ten. *)
Lemma device_args_not_nine : length (directives Device) <> 9%nat.
Proof. discriminate. Qed.

(** C5, amended.  The device category maps to exactly ten fixed directives,
    each clearing one tag: make, model, the four serial-number tags, lens
    model, lens id, artist and owner name; a request for the device category
    alone yields exactly these. *)
Theorem device_args_ten :
  length (directives Device) = 10%nat
  /\ directives Device
     = map clear_tag ["Make"; "Model"; "SerialNumber"; "BodySerialNumber";
                      "CameraSerialNumber"; "LensSerialNumber"; "LensModel";
                      "LensID"; "Artist"; "OwnerName"]
  /\ NoDup (directives Device)
  /\ build_strip_args ["device"] = directives Device.
Proof.
  repeat split; try reflexivity.
  unfold directives, DEVICE_ARGS.
  repeat (constructor; [simpl; intuition discriminate|]). constructor.
Qed.

(** ** Metadata writer *)

Section Writer.

Variables Raster Font Session : Type.
Variable w : World Raster Font Session.

Lemma append_assoc (a b c : string) : (a ++ b) ++ c = a ++ b ++ c.
Proof. induction a as [|x a IH]; simpl; [reflexivity | now rewrite IH]. Qed.

Lemma exit_message_suffix cp cmd :
  exists before, exit_message cp cmd = before ++ str_or (strip (stderr cp)) "(none)".
Proof.
  unfold exit_message.
  exists ("exiftool exit " ++ str_of_int (returncode cp) ++ newline ++ newline
          ++ "Command:" ++ newline ++ repr_list cmd ++ newline ++ newline
          ++ "StdErr:" ++ newline).
  now rewrite !append_assoc.
Qed.

Lemma in_0_1_spec rc : in_0_1 rc = true <-> rc = 0 \/ rc = 1.
Proof. unfold in_0_1. rewrite orb_true_iff, !Z.eqb_eq. tauto. Qed.

Lemma write_unavailable n data args hint :
  exiftool w = None ->
  exiftool_write_from_bytes w n data args hint = Raise ToolUnavailable.
Proof. unfold exiftool_write_from_bytes. now intros ->. Qed.

(** What making the temporary file raises reaches the caller. *)
Lemma write_no_tempfile n data args hint tool descr :
  exiftool w = Some tool ->
  NamedTemporaryFile w n hint data = Fails descr ->
  exiftool_write_from_bytes w n data args hint = Raise (External descr).
Proof.
  intros Htool Htemp. unfold exiftool_write_from_bytes. now rewrite Htool, Htemp.
Qed.

Lemma write_run n data args hint tool temp_in cp out_file :
  exiftool w = Some tool ->
  NamedTemporaryFile w n hint data = Returns temp_in ->
  subprocess_run w
    ([tool; "-m"; "-o"; (temp_in ++ ".out")%string] ++ args ++ [temp_in])%list data
  = Returns (cp, out_file) ->
  exiftool_write_from_bytes w n data args hint
  = match out_file with
    | Some out => Ok out
    | None =>
        if in_0_1 (returncode cp) then Ok data
        else Raise (ToolExecutionError cp
                      ([tool; "-m"; "-o"; (temp_in ++ ".out")%string] ++ args
                       ++ [temp_in])%list)
    end.
Proof.
  intros Htool Htemp Hrun. unfold exiftool_write_from_bytes. rewrite Htool, Htemp.
  cbn [call rbind try_finally]. rewrite Hrun. cbn [call rbind].
  destruct (in_0_1 (returncode cp)), out_file; reflexivity.
Qed.

(** C2.  The writer raises [ToolUnavailable] exactly when the tool was not
    located.  When the tool is there and exits with status 0 or 1, the writer
    returns the bytes of the output file if it exists and the input bytes
    otherwise; with any other status it returns the bytes of the output file
    if it exists, and otherwise raises [ToolExecutionError], whose message
    ends with the tool's standard error stream (stripped; a fixed placeholder
    when that is blank).  [temp_in] is the temporary file the tool ran on,
    the n-th of the session. *)
Theorem exiftool_write_contract (n : nat) (data : bytes) (args : list string)
    (hint : string) :
  (exiftool_write_from_bytes w n data args hint = Raise ToolUnavailable
   <-> exiftool w = None)
  /\ forall tool temp_in cp out_file,
       let cmd := ([tool; "-m"; "-o"; (temp_in ++ ".out")%string] ++ args
                   ++ [temp_in])%list in
       exiftool w = Some tool ->
       NamedTemporaryFile w n hint data = Returns temp_in ->
       subprocess_run w cmd data = Returns (cp, out_file) ->
       (returncode cp = 0 \/ returncode cp = 1 ->
        exiftool_write_from_bytes w n data args hint
        = Ok (match out_file with Some out => out | None => data end))
       /\ (returncode cp <> 0 -> returncode cp <> 1 ->
           match out_file with
           | Some out => exiftool_write_from_bytes w n data args hint = Ok out
           | None =>
               exiftool_write_from_bytes w n data args hint
               = Raise (ToolExecutionError cp cmd)
               /\ exists before,
                    ToolExecutionError cp cmd
                    = RuntimeError (before ++ str_or (strip (stderr cp)) "(none)")
           end).
Proof.
  split.
  - split; [|apply write_unavailable].
    destruct (exiftool w) as [tool|] eqn:Htool; [|reflexivity].
    intros H. exfalso. revert H.
    unfold exiftool_write_from_bytes. rewrite Htool.
    destruct (NamedTemporaryFile w n hint data) as [temp_in|descr];
      cbn [call rbind try_finally]; [|discriminate].
    destruct (subprocess_run w _ data) as [[cp out_file]|descr]; cbn [call rbind].
    + destruct (in_0_1 (returncode cp)), out_file; cbn; try discriminate.
    + discriminate.
  - intros tool temp_in cp out_file cmd Htool Htemp Hrun.
    pose proof (write_run n data args hint Htool Htemp Hrun) as Hw. fold cmd in Hw.
    split.
    + intros Hrc. apply in_0_1_spec in Hrc. rewrite Hw, Hrc.
      now destruct out_file.
    + intros H0 H1. rewrite Hw.
      assert (Hrc : in_0_1 (returncode cp) = false).
      { destruct (in_0_1 (returncode cp)) eqn:E; [|reflexivity].
        apply in_0_1_spec in E. tauto. }
      rewrite Hrc. destruct out_file; [reflexivity|].
      split; [reflexivity|].
      destruct (exit_message_suffix cp cmd) as [before Hb].
      exists before. unfold ToolExecutionError. now rewrite Hb.
Qed.

End Writer.

(** ** Metadata reader *)

Section Reader.

Variables Raster Font Session : Type.
Variable w : World Raster Font Session.

Lemma try_except_ok {A} (body : result A) (a : A) :
  exists x, try_except body (fun _ => Ok a) = Ok x.
Proof. destruct body as [x|e]; [exists x | exists a]; reflexivity. Qed.

(** The tool's part returns once its temporary file is made, and without
    the tool. *)
Lemma exiftool_json_returns n data hint :
  exiftool w = None \/ (exists temp_in, NamedTemporaryFile w n hint data = Returns temp_in) ->
  exists d, exiftool_json_from_bytes w n data hint = Ok d.
Proof.
  unfold exiftool_json_from_bytes.
  destruct (exiftool w) as [tool|]; [|now exists empty_dict].
  intros [H|[temp_in ->]]; [discriminate|].
  cbn [call rbind try_finally]. apply try_except_ok.
Qed.

Lemma exiftool_json_no_tempfile n data hint tool descr :
  exiftool w = Some tool ->
  NamedTemporaryFile w n hint data = Fails descr ->
  exiftool_json_from_bytes w n data hint = Raise (External descr).
Proof.
  intros Htool Htemp. unfold exiftool_json_from_bytes. now rewrite Htool, Htemp.
Qed.

Lemma pil_exif_fallback_total data :
  exists t, pil_exif_fallback w data = Ok t.
Proof. unfold pil_exif_fallback. apply try_except_ok. Qed.

Lemma read_exif_returns n data hint :
  exiftool w = None \/ (exists temp_in, NamedTemporaryFile w n hint data = Returns temp_in) ->
  exists d, read_exif_from_bytes w n data hint = Ok d.
Proof.
  intros H. unfold read_exif_from_bytes.
  destruct (exiftool_json_returns n data hint H) as [d ->]. cbn [rbind].
  destruct (truthy d); [now exists d|].
  destruct (pil_exif_fallback_total data) as [t ->]. now exists (VDict t).
Qed.

Lemma read_exif_no_tempfile n data hint tool descr :
  exiftool w = Some tool ->
  NamedTemporaryFile w n hint data = Fails descr ->
  read_exif_from_bytes w n data hint = Raise (External descr).
Proof.
  intros Htool Htemp. unfold read_exif_from_bytes.
  now rewrite (exiftool_json_no_tempfile n data hint Htool Htemp).
Qed.

(** The read raises in one case only. *)
Lemma read_exif_raises n data hint e :
  read_exif_from_bytes w n data hint = Raise e
  <-> exists tool descr,
        exiftool w = Some tool
        /\ NamedTemporaryFile w n hint data = Fails descr
        /\ e = External descr.
Proof.
  split.
  - intros Hraise.
    destruct (exiftool w) as [tool|] eqn:Htool.
    + destruct (NamedTemporaryFile w n hint data) as [temp_in|descr] eqn:Htemp.
      * destruct (read_exif_returns n data hint) as [d Hd]; [right; now exists temp_in|].
        congruence.
      * rewrite (read_exif_no_tempfile n data hint Htool Htemp) in Hraise.
        injection Hraise as <-. now exists tool, descr.
    + destruct (read_exif_returns n data hint) as [d Hd]; [now left|]. congruence.
  - intros (tool & descr & Htool & Htemp & ->).
    now apply read_exif_no_tempfile with (tool := tool).
Qed.

(** C3, amended.  [read_exif_from_bytes] raises in one case only: ExifTool
    is there and its temporary input file, which is made before the [try],
    cannot be created or written; the error of that step reaches the caller.
    Without the tool, or once the file is made, the read returns, and each
    failure inside it is turned into an empty mapping: the tool missing, the
    tool not starting, an exit status other than 0 and 1, output that
    [json.loads] rejects, an image PIL cannot open, an EXIF block PIL cannot
    read or whose GPS part makes the decoding raise; and when both the tool
    and the fallback come back empty, so does the read. *)
Theorem read_exif_raises_only_for_tempfile (n : nat) (data : bytes) (hint : string) :
  (forall e, read_exif_from_bytes w n data hint = Raise e
             <-> exists tool descr,
                   exiftool w = Some tool
                   /\ NamedTemporaryFile w n hint data = Fails descr
                   /\ e = External descr)
  /\ (exiftool w = None
      \/ (exists temp_in, NamedTemporaryFile w n hint data = Returns temp_in) ->
      exists d, read_exif_from_bytes w n data hint = Ok d)
  /\ (exiftool w = None -> exiftool_json_from_bytes w n data hint = Ok empty_dict)
  /\ (forall tool temp_in,
        let cmd := [tool; "-j"; "-n"; "-api"; "largefilesupport=1"; temp_in] in
        exiftool w = Some tool ->
        NamedTemporaryFile w n hint data = Returns temp_in ->
        (forall descr, subprocess_run w cmd data = Fails descr ->
                       exiftool_json_from_bytes w n data hint = Ok empty_dict)
        /\ (forall cp out, subprocess_run w cmd data = Returns (cp, out) ->
                           returncode cp <> 0 -> returncode cp <> 1 ->
                           exiftool_json_from_bytes w n data hint = Ok empty_dict)
        /\ (forall cp out descr,
              subprocess_run w cmd data = Returns (cp, out) ->
              stdout cp <> EmptyString ->
              json_loads w (stdout cp) = Fails descr ->
              exiftool_json_from_bytes w n data hint = Ok empty_dict))
  /\ (forall descr, Image_open w data = Fails descr ->
                    pil_exif_fallback w data = Ok [])
  /\ (forall im descr, Image_open w data = Returns im ->
                       getexif w im = Fails descr ->
                       pil_exif_fallback w data = Ok [])
  /\ (forall im info e, Image_open w data = Returns im ->
                        getexif w im = Returns (Some info) ->
                        info <> [] ->
                        decode_gps w (rename_keys (TAGS w) info) = Raise e ->
                        pil_exif_fallback w data = Ok [])
  /\ (exiftool_json_from_bytes w n data hint = Ok empty_dict ->
      pil_exif_fallback w data = Ok [] ->
      read_exif_from_bytes w n data hint = Ok empty_dict).
Proof.
  split; [intros e; apply read_exif_raises|].
  split; [apply read_exif_returns|].
  split.
  { unfold exiftool_json_from_bytes. now intros ->. }
  split.
  { intros tool temp_in cmd Htool Htemp. unfold exiftool_json_from_bytes.
    rewrite Htool, Htemp. cbn [call rbind try_finally]. fold cmd. repeat split.
    - intros descr ->. reflexivity.
    - intros cp out -> H0 H1. cbn [call rbind fst].
      destruct (in_0_1 (returncode cp)) eqn:E; [|reflexivity].
      unfold in_0_1 in E. apply orb_true_iff in E. rewrite !Z.eqb_eq in E. tauto.
    - intros cp out descr -> Hne Hjson. cbn [call rbind fst].
      destruct (in_0_1 (returncode cp)); [|reflexivity]. cbn [negb].
      destruct (stdout cp) eqn:Hs; [congruence|]. cbn [str_truthy].
      rewrite Hjson. reflexivity. }
  split.
  { intros descr H. unfold pil_exif_fallback. now rewrite H. }
  split.
  { intros im descr H1 H2. unfold pil_exif_fallback. rewrite H1. cbn [call rbind].
    now rewrite H2. }
  split.
  { intros im info e H1 H2 Hne H3. unfold pil_exif_fallback. rewrite H1.
    cbn [call rbind]. rewrite H2. cbn [call rbind].
    destruct info; [congruence|]. now rewrite H3. }
  intros H1 H2. unfold read_exif_from_bytes. rewrite H1. cbn [rbind truthy empty_dict].
  now rewrite H2.
Qed.

End Reader.

(** C3, as the specification words it: never, for every hint.  A hint that
    names a directory makes the temporary file impossible to create, and the
    error of that step, outside the [try], reaches the caller. *)
Lemma read_exif_raises_without_tempfile :
  read_exif_from_bytes (sample_world None EmptyString known_magic) 0 jpeg_bytes
    "/no/such/dir/x.jpg"
  = Raise (External "FileNotFoundError").
Proof. reflexivity. Qed.

(** ** Watermark *)

Section Watermark.

Variables Raster Font Session : Type.
Variable w : World Raster Font Session.




End Watermark.


(** The default stamp on the sample image. *)
Lemma add_watermark_sample :
  add_watermark (sample_world None EmptyString known_magic) sample_image "SAFE" 160
  = Ok {| mode := "RGBA"; size := (640, 480); raster := tt |}.
Proof. reflexivity. Qed.

(** ** [float()] on texts *)

(** White space around a number is passed over, the no-break space included;
    a separator character that [str.strip] would remove is not, and an
    underscore is taken between digits only. *)
Lemma py_float_examples :
  py_float (VStr "  -79.25 ") = Ok (-79.25)%float
  /\ py_float (VStr (String "160" "1.5")) = Ok 1.5%float
  /\ py_float (VStr (String "028" "1.5")) = Raise ValueError
  /\ strip (String "028" "1.5") = "1.5"
  /\ py_float (VStr "1_000.5") = Ok 1000.5%float
  /\ py_float (VStr "1_.5") = Raise ValueError
  /\ py_float (VStr "Infinity") = Ok infinity
  /\ py_float (VStr EmptyString) = Raise ValueError.
Proof. repeat split; reflexivity. Qed.

(** ** Summary of the GPS pair *)

#[local] Set Warnings "-inexact-float".

Lemma gps_of_summary ex :
  gps (summarize_exif ex)
  = let lat := gv ex ["GPSLatitude"; "EXIF:GPSLatitude"] in
    let lon := gv ex ["GPSLongitude"; "EXIF:GPSLongitude"] in
    if not_none lat && not_none lon then
      match py_float lat, py_float lon with
      | Ok la, Ok lo => Some (la, lo)
      | _, _ => None
      end
    else None.
Proof.
  unfold summarize_exif. cbn [gps]. cbv zeta.
  destruct (not_none _ && not_none _); [|reflexivity].
  destruct (py_float (gv ex ["GPSLatitude"; "EXIF:GPSLatitude"])); [|reflexivity].
  cbn [rbind].
  destruct (py_float (gv ex ["GPSLongitude"; "EXIF:GPSLongitude"])); reflexivity.
Qed.

Lemma not_none_spec v : not_none v = true <-> v <> VNone.
Proof. destruct v; simpl; split; congruence. Qed.

(** C8, as the specification words it: finite numbers only.  A latitude
    that ExifTool reports as the text inf is accepted by [float()], and the
    pair is populated with an infinite latitude. *)
Lemma gps_pair_accepts_infinity :
  gps (summarize_exif [(KStr "GPSLatitude", VStr "inf");
                       (KStr "GPSLongitude", VFloat 12.5)])
  = Some (infinity, 12.5%float)
  /\ is_finite infinity = false.
Proof. split; reflexivity. Qed.

(** C8, amended.  The GPS pair is populated exactly when both the latitude
    and the longitude are found (first alias with a non-blank value, and not
    [None]) and [float()] accepts both; it then holds the two converted
    values.  If either value is missing or [float()] raises on it, the GPS
    field is absent: there is never a pair with one coordinate. *)
Theorem summarize_gps_both_or_neither (ex : pydict) :
  let lat := gv ex ["GPSLatitude"; "EXIF:GPSLatitude"] in
  let lon := gv ex ["GPSLongitude"; "EXIF:GPSLongitude"] in
  (forall la lo,
      gps (summarize_exif ex) = Some (la, lo)
      <-> lat <> VNone /\ lon <> VNone /\ py_float lat = Ok la /\ py_float lon = Ok lo)
  /\ (lat = VNone \/ lon = VNone
      \/ (exists e, py_float lat = Raise e) \/ (exists e, py_float lon = Raise e) ->
      gps (summarize_exif ex) = None).
Proof.
  intros lat lon. rewrite gps_of_summary. fold lat lon. cbv zeta.
  split.
  - intros la lo.
    destruct (not_none lat) eqn:Hlat, (not_none lon) eqn:Hlon; cbn [andb];
      try (apply not_none_spec in Hlat); try (apply not_none_spec in Hlon).
    + destruct (py_float lat) as [a|e], (py_float lon) as [b|e'];
        split; try discriminate; try (intros (_ & _ & H1 & H2); discriminate).
      * intros H. injection H as -> ->. auto.
      * intros (_ & _ & H1 & H2). congruence.
    + split; [discriminate|]. intros (_ & H & _).
      destruct lon; simpl in Hlon; congruence.
    + split; [discriminate|]. intros (H & _).
      destruct lat; simpl in Hlat; congruence.
    + split; [discriminate|]. intros (H & _).
      destruct lat; simpl in Hlat; congruence.
  - intros [H|[H|[[e H]|[e H]]]].
    + rewrite H. reflexivity.
    + rewrite H. now rewrite andb_false_r.
    + rewrite H. now destruct (not_none lat && not_none lon).
    + rewrite H. destruct (not_none lat && not_none lon); [|reflexivity].
      now destruct (py_float lat).
Qed.

Lemma summarize_gps_examples :
  gps (summarize_exif [(KStr "GPSLatitude", VFloat 40.5); (KStr "GPSLongitude", VStr " -79.25 ")])
  = Some (40.5, -79.25)%float
  /\ gps (summarize_exif [(KStr "GPSLatitude", VFloat 40.5); (KStr "GPSLongitude", VStr "west")])
     = None
  /\ gps (summarize_exif [(KStr "GPSLatitude", VFloat 40.5)]) = None
  /\ gps (summarize_exif [(KStr "GPSLatitude", VStr "  "); (KStr "EXIF:GPSLatitude", VInt 3);
                          (KStr "EXIF:GPSLongitude", VInt 4)])
     = Some (3, 4)%float.
Proof. repeat split; reflexivity. Qed.

(** ** Degrees, minutes, seconds *)

Section Degrees.

Variables Raster Font Session : Type.
Variable w : World Raster Font Session.

Hypothesis tag1 : GPSTAGS w 1 = Some "GPSLatitudeRef".
Hypothesis tag2 : GPSTAGS w 2 = Some "GPSLatitude".
Hypothesis tag3 : GPSTAGS w 3 = Some "GPSLongitudeRef".
Hypothesis tag4 : GPSTAGS w 4 = Some "GPSLongitude".







End Degrees.



(** ** The SAFE pipeline *)

Section Safe.

Variables Raster Font Session : Type.
Variable w : World Raster Font Session.

Ltac run_calls :=
  repeat match goal with
         | |- context [call ?o] => destruct o; cbn
         end.

Lemma with_session_image s : image_state (with_session w s) = image_state s.
Proof.
  unfold with_session.
  destruct (REMBG_OK w), (_rembg_session s), (new_session w "u2net"); reflexivity.
Qed.

Lemma with_session_dialogs s : dialogs (with_session w s) = dialogs s.
Proof.
  unfold with_session.
  destruct (REMBG_OK w), (_rembg_session s), (new_session w "u2net"); reflexivity.
Qed.

Lemma tempfile_used_image (s : App Raster Session) :
  image_state (tempfile_used w s) = image_state s.
Proof. unfold tempfile_used. now destruct (exiftool w). Qed.

Lemma tempfile_used_dialogs (s : App Raster Session) :
  dialogs (tempfile_used w s) = dialogs s.
Proof. unfold tempfile_used. now destruct (exiftool w). Qed.

(** What [_set_from_bytes] leaves behind, whether or not the metadata read
    or a refresh raised on the way: the ImageState, the message boxes, the
    strip-only switch. *)
Lemma set_from_bytes_state data h st (s : App Raster Session) :
  let s' := snd (_set_from_bytes w data h st s) in
  image_state s'
  = match Image_open w data with
    | Fails _ => (Some data, None, empty_dict, current_ext s)
    | Returns im =>
        (Some data, Some im, metadata w s data (hinted h (current_ext s)),
         hinted h (current_ext s))
    end
  /\ dialogs s'
     = match Image_open w data with
       | Fails d => open_dialog d :: dialogs s
       | Returns _ => dialogs s
       end
  /\ var_striponly s' = var_striponly s.
Proof.
  unfold _set_from_bytes, bind, modify, gets, lift, wrapper, tempfile_used, messagebox,
    _update_buttons, _scale_preview, _render_details, ret, metadata, hinted.
  destruct (Image_open w data) as [im|d]; cbn.
  - destruct (read_exif_from_bytes w (tempfiles s) data
                (match h with Some x => str_or x (current_ext s) | None => current_ext s end))
      as [ex|e]; cbn.
    + destruct (exiftool w), st as [t|]; try destruct (str_truthy t); run_calls; auto.
    + destruct (exiftool w); auto.
  - run_calls; auto.
Qed.

(** [_set_from_bytes] raises what the metadata read raises, before the
    status line and the widgets are touched. *)
Lemma set_from_bytes_read_raises data h st (s : App Raster Session) im e :
  Image_open w data = Returns im ->
  read_exif_from_bytes w (tempfiles s) data (hinted h (current_ext s)) = Raise e ->
  fst (_set_from_bytes w data h st s) = Raise e
  /\ status (snd (_set_from_bytes w data h st s)) = status s
  /\ current_exif (snd (_set_from_bytes w data h st s)) = current_exif s.
Proof.
  intros Hopen Hread.
  unfold _set_from_bytes, bind, modify, gets, lift, wrapper, tempfile_used, hinted in *.
  rewrite Hopen. cbn. rewrite Hread. cbn. destruct (exiftool w); auto.
Qed.

Lemma refresh_calls (Hgui : refresh_succeeds w) (s : App Raster Session) :
  call (scale_preview w s) = Ok tt
  /\ call (render_details w s) = Ok tt
  /\ call (update_buttons w s) = Ok tt.
Proof. destruct (Hgui s) as (-> & -> & ->). auto. Qed.

(** With widgets that refresh, [_set_from_bytes] returns unless the metadata
    read raises. *)
Lemma set_from_bytes_returns data h st (s : App Raster Session) :
  refresh_succeeds w ->
  (exists d, Image_open w data = Fails d)
  \/ (exists ex, read_exif_from_bytes w (tempfiles s) data (hinted h (current_ext s))
                 = Ok ex) ->
  fst (_set_from_bytes w data h st s) = Ok tt.
Proof.
  intros Hgui Hcase.
  cbv beta iota delta [_set_from_bytes bind modify gets lift wrapper messagebox
    _update_buttons _scale_preview _render_details ret hinted] in *.
  destruct (Image_open w data) as [im|d]; cbn [call fst snd].
  - destruct Hcase as [[d Hd]|[ex Hex]]; [discriminate|].
    cbn [current_ext set_current_bytes set_current_image set_current_ext tempfiles].
    rewrite Hex. cbn [fst snd].
    rewrite (proj1 (refresh_calls Hgui _)). cbn [fst snd].
    rewrite (proj1 (proj2 (refresh_calls Hgui _))). cbn [fst snd].
    destruct st as [t|]; [destruct (str_truthy t)|]; cbn [fst snd];
      rewrite (proj2 (proj2 (refresh_calls Hgui _))); reflexivity.
  - rewrite (proj2 (proj2 (refresh_calls Hgui _))). reflexivity.
Qed.

(** Around [_set_from_bytes], the except clause changes the message boxes at
    most. *)
Lemma caught_set_from_bytes ttl data h st (s : App Raster Session) :
  let body := _set_from_bytes w data h st in
  let s' := snd (caught ttl body s) in
  fst (caught ttl body s) = Ok tt
  /\ image_state s' = image_state (snd (body s))
  /\ var_striponly s' = var_striponly (snd (body s))
  /\ (dialogs s' = dialogs (snd (body s))
      \/ exists e, fst (body s) = Raise e
                   /\ dialogs s' = stage_dialog ttl e :: dialogs (snd (body s)))
  /\ (fst (body s) = Ok tt -> dialogs s' = dialogs (snd (body s))).
Proof.
  cbv zeta. unfold caught, try_exceptM.
  destruct (_set_from_bytes w data h st s) as [[[]|e] s1]; cbn.
  - repeat split; auto.
  - repeat split; auto.
    + right. now exists e.
    + discriminate.
Qed.

Lemma action_safe_idle (s : App Raster Session) :
  current_bytes s = None \/ current_bytes s = Some [] ->
  action_safe w s = (Ok tt, s).
Proof.
  unfold action_safe, bind, gets, ret. intros [H|H]; rewrite H; reflexivity.
Qed.

Lemma tempfile_used_ext (s : App Raster Session) :
  current_ext (tempfile_used w s) = current_ext s.
Proof. unfold tempfile_used. now destruct (exiftool w). Qed.

Lemma tempfile_used_bytes (s : App Raster Session) :
  current_bytes (tempfile_used w s) = current_bytes s.
Proof. unfold tempfile_used. now destruct (exiftool w). Qed.

Lemma action_safe_strip_only (s : App Raster Session) data :
  current_bytes s = Some data -> data <> [] -> var_striponly s = true ->
  action_safe w s
  = match exiftool w with
    | None => (Ok tt, add_dialog tool_required s)
    | Some _ =>
        match exiftool_write_from_bytes w (tempfiles s) data
                (build_strip_args all_categories) (current_ext s) with
        | Ok out =>
            caught "SAFE (strip-only)"
              (_set_from_bytes w out (Some (current_ext s)) (Some strip_only_status))
              (tempfile_used w s)
        | Raise e =>
            (Ok tt, add_dialog (stage_dialog "SAFE (strip-only)" e) (tempfile_used w s))
        end
    end.
Proof.
  intros Hcur Hne Hmode.
  unfold action_safe, bind, gets, ret. rewrite Hcur.
  destruct data as [|b data]; [congruence|]. rewrite Hmode.
  destruct (exiftool w) as [tool|] eqn:Htool; [|reflexivity].
  unfold caught, try_exceptM, bind, gets, lift, wrapper. rewrite Hcur.
  destruct (exiftool_write_from_bytes w (tempfiles s) (b :: data) _ (current_ext s))
    as [out|e]; [|reflexivity].
  now rewrite tempfile_used_ext.
Qed.

Lemma action_safe_full (s : App Raster Session) data :
  current_bytes s = Some data -> data <> [] -> var_striponly s = false ->
  action_safe w s
  = match full_pipeline w (tempfiles s) (_rembg_session s) data (current_ext s) with
    | Ok (png, _) =>
        caught "SAFE (full)"
          (_set_from_bytes w png (Some ".png") (Some full_status)) (staged w s data)
    | Raise e => (Ok tt, add_dialog (stage_dialog "SAFE (full)" e) (staged w s data))
    end.
Proof.
  intros Hcur Hne Hmode.
  unfold action_safe, bind, gets, ret. rewrite Hcur.
  destruct data as [|b data]; [congruence|]. rewrite Hmode.
  unfold caught, try_exceptM, bind, gets, lift, ret. rewrite Hcur.
  unfold full_pipeline, staged, stage_background, with_session, rembg_session,
    bind, gets, lift, ret, modify.
  assert (Htail : forall (s1 : App Raster Session) d e,
      tempfiles s1 = tempfiles s ->
      (let (r, s') :=
         match
           match exiftool w with
           | Some _ =>
               wrapper w (fun n =>
                 exiftool_write_from_bytes w n d (build_strip_args all_categories) e)
           | None => fun s0 : App Raster Session => (Ok d, s0)
           end s1
         with
         | (Ok a, s') =>
             match open_image_any w a with
             | Ok img =>
                 match add_watermark w img "SAFE" 160 with
                 | Ok img0 =>
                     match to_png_bytes w img0 with
                     | Ok png => _set_from_bytes w png (Some ".png")
                                   (Some "SAFE copy created (full) and set as current.") s'
                     | Raise e0 => (Raise e0, s')
                     end
                 | Raise e0 => (Raise e0, s')
                 end
             | Raise e0 => (Raise e0, s')
             end
         | (Raise e0, s') => (Raise e0, s')
         end in
       match r with
       | Ok a => (Ok a, s')
       | Raise e0 => messagebox ShowError "SAFE (full)" (StrOf e0) s'
       end)
    = match (b0 <- stage_strip w (tempfiles s) (d, e) ;; stage_watermark w b0)%result with
      | Ok (png, _) =>
          let (r, s') := _set_from_bytes w png (Some ".png") (Some full_status)
                           (tempfile_used w s1) in
          match r with
          | Ok a => (Ok a, s')
          | Raise e0 => messagebox ShowError "SAFE (full)" (StrOf e0) s'
          end
      | Raise e0 => (Ok tt, add_dialog (stage_dialog "SAFE (full)" e0) (tempfile_used w s1))
      end).
  { intros s1 d e Hn. unfold stage_strip, stage_watermark, wrapper, tempfile_used.
    rewrite <- Hn.
    destruct (exiftool w) as [tool|]; cbn [fst snd rbind].
    - change (build_strip_args all_categories)
        with (GPS_ARGS ++ DEVICE_ARGS ++ DATETIME_ARGS)%list.
      destruct (exiftool_write_from_bytes w (tempfiles s1) d _ e) as [out|e0];
        [|reflexivity].
      cbn [rbind fst snd].
      destruct (open_image_any w out) as [img|e0]; [|reflexivity]. cbn [rbind].
      destruct (add_watermark w img "SAFE" 160) as [img0|e0]; [|reflexivity].
      cbn [rbind].
      destruct (to_png_bytes w img0) as [png|e0]; reflexivity.
    - destruct (open_image_any w d) as [img|e0]; [|reflexivity]. cbn [rbind].
      destruct (add_watermark w img "SAFE" 160) as [img0|e0]; [|reflexivity].
      cbn [rbind].
      destruct (to_png_bytes w img0) as [png|e0]; reflexivity. }
  destruct (REMBG_OK w).
  - destruct (_rembg_session s) as [sess|].
    + cbn [rbind]. destruct (remove w (b :: data) sess) as [out|d]; cbn [call rbind].
      * now apply Htail.
      * reflexivity.
    + destruct (new_session w "u2net") as [sess|d]; cbn [call rbind].
      * destruct (remove w (b :: data) sess) as [out|d]; cbn [call rbind].
        -- now apply Htail.
        -- reflexivity.
      * reflexivity.
  - cbn [rbind]. now apply Htail.
Qed.

Lemma stage_watermark_png work out :
  stage_watermark w work = Ok out -> snd out = ".png".
Proof.
  unfold stage_watermark.
  destruct (open_image_any w (fst work)) as [img|e]; [|discriminate]. cbn [rbind].
  destruct (add_watermark w img "SAFE" 160) as [marked|e]; [|discriminate]. cbn [rbind].
  destruct (to_png_bytes w marked) as [png|e]; [|discriminate]. cbn [rbind].
  now intros [= <-].
Qed.

Lemma safe_result_full (s : App Raster Session) data :
  var_striponly s = false ->
  safe_result w s data
  = match full_pipeline w (tempfiles s) (_rembg_session s) data (current_ext s) with
    | Ok (png, _) => Ok png
    | Raise e => Raise e
    end.
Proof.
  intros Hmode. unfold safe_result, full_pipeline. rewrite Hmode.
  destruct (stage_background w (_rembg_session s) data (current_ext s)) as [a|];
    [|reflexivity]. cbn [rbind].
  destruct (stage_strip w (tempfiles s) a) as [b|]; [|reflexivity]. cbn [rbind].
  destruct (stage_watermark w b) as [[png ext]|]; reflexivity.
Qed.

Lemma with_session_ext s : current_ext (with_session w s) = current_ext s.
Proof.
  pose proof (with_session_image s) as H. unfold image_state in H. congruence.
Qed.

Lemma with_session_tempfiles s : tempfiles (with_session w s) = tempfiles s.
Proof.
  unfold with_session.
  destruct (REMBG_OK w), (_rembg_session s), (new_session w "u2net"); reflexivity.
Qed.

Lemma staged_image s data : image_state (staged w s data) = image_state s.
Proof.
  unfold staged. destruct (stage_background w _ data _).
  - now rewrite tempfile_used_image, with_session_image.
  - apply with_session_image.
Qed.

Lemma staged_dialogs s data : dialogs (staged w s data) = dialogs s.
Proof.
  unfold staged. destruct (stage_background w _ data _).
  - now rewrite tempfile_used_dialogs, with_session_dialogs.
  - apply with_session_dialogs.
Qed.

(** The ImageState [_set_from_bytes] makes depends on the state it starts
    from through the format hint, the metadata (which stay when the read
    raises) and the count of temporary files. *)
Lemma set_from_bytes_image_from data h st0 st (s0 s : App Raster Session) :
  current_ext s0 = current_ext s ->
  current_exif s0 = current_exif s ->
  tempfiles s0 = tempfiles s ->
  image_state (snd (_set_from_bytes w data h st0 s0))
  = image_state (snd (_set_from_bytes w data h st s)).
Proof.
  intros Hext Hexif Hn.
  rewrite (proj1 (set_from_bytes_state data h st0 s0)).
  rewrite (proj1 (set_from_bytes_state data h st s)).
  unfold metadata. now rewrite Hext, Hexif, Hn.
Qed.

Lemma staged_run s data png ext :
  full_pipeline w (tempfiles s) (_rembg_session s) data (current_ext s) = Ok (png, ext) ->
  staged w s data = tempfile_used w (with_session w s).
Proof.
  unfold full_pipeline, staged.
  now destruct (stage_background w (_rembg_session s) data (current_ext s)).
Qed.

Lemma tempfile_used_with_session st png (s : App Raster Session) :
  image_state (snd (_set_from_bytes w png (Some ".png") st (tempfile_used w (with_session w s))))
  = image_state (snd (_set_from_bytes w png (Some ".png") st (tempfile_used w s))).
Proof.
  apply set_from_bytes_image_from; unfold tempfile_used; destruct (exiftool w); cbn;
    try apply with_session_ext; try (now rewrite with_session_tempfiles);
    pose proof (with_session_image s) as H; unfold image_state in H; congruence.
Qed.

(** C7.  With strip-only off, a SAFE run is the three stages in this order:
    background removal (only when rembg is there; it hands on the PNG hint),
    then the metadata strip with the directives of all three categories (only
    when ExifTool is there), then the watermark stage, which runs in every
    case and whose PNG bytes, under the PNG hint, are what is made current.
    If a stage raises, its error is reported and nothing is made current. *)
Theorem safe_full_stage_order (s : App Raster Session) (data : bytes) :
  current_bytes s = Some data -> data <> [] -> var_striponly s = false ->
  let s' := snd (action_safe w s) in
  match (a <- stage_background w (_rembg_session s) data (current_ext s) ;;
         b <- stage_strip w (tempfiles s) a ;;
         stage_watermark w b)%result with
  | Ok (png, ext) =>
      ext = ".png"
      /\ image_state s'
         = image_state (snd (_set_from_bytes w png (Some ".png") (Some full_status)
                               (tempfile_used w s)))
  | Raise e =>
      image_state s' = image_state s
      /\ dialogs s' = stage_dialog "SAFE (full)" e :: dialogs s
  end.
Proof.
  intros Hcur Hne Hmode s'. subst s'.
  rewrite (action_safe_full s Hcur Hne Hmode).
  pose proof (staged_run s data) as Hstaged. unfold full_pipeline in *.
  destruct (a <- stage_background w (_rembg_session s) data (current_ext s) ;;
            b <- stage_strip w (tempfiles s) a ;; stage_watermark w b)%result
    as [[png ext]|e] eqn:Hrun.
  - split.
    + destruct (stage_background w (_rembg_session s) data (current_ext s)) as [a|];
        [|discriminate]. cbn [rbind] in Hrun.
      destruct (stage_strip w (tempfiles s) a) as [b|]; [|discriminate].
      cbn [rbind] in Hrun.
      apply stage_watermark_png in Hrun. exact Hrun.
    + rewrite (Hstaged png ext eq_refl).
      destruct (caught_set_from_bytes "SAFE (full)" png (Some ".png") (Some full_status)
                  (tempfile_used w (with_session w s))) as (_ & -> & _).
      apply tempfile_used_with_session.
  - cbn [snd]. split.
    + unfold image_state. cbn. apply staged_image.
    + cbn. now rewrite staged_dialogs.
Qed.


Lemma str_or_same x : str_or x x = x.
Proof. now destruct x. Qed.

End Safe.



(** A full run on a JPEG where rembg is missing: strip, then watermark. *)
Lemma safe_full_stage_order_witness :
  let w := sample_world None "    1 image files unchanged" known_magic in
  let s := sample_state false jpeg_bytes (Some sample_image) ".jpg" in
  image_state (snd (action_safe w s))
  = image_state (snd (_set_from_bytes w [Byte.x89; Byte.x50; Byte.x4e; Byte.x47]
                        (Some ".png") (Some full_status) (tempfile_used w s))).
Proof.
  exact (proj2 (@safe_full_stage_order unit unit unit
                  (sample_world None "    1 image files unchanged" known_magic)
                  (sample_state false jpeg_bytes (Some sample_image) ".jpg") jpeg_bytes
                  eq_refl
                  (fun H => eq_ind jpeg_bytes
                              (fun l => match l with [] => False | _ => True end) I [] H)
                  eq_refl)).
Defined.

(** * Further properties *)

(** ** Aliases and serial numbers in the summary *)

Lemma gv_skip ex k rest :
  (dict_find ex (KStr k) = None
   \/ exists v, dict_find ex (KStr k) = Some v /\ str_nonblank v = false) ->
  gv ex (k :: rest) = gv ex rest.
Proof.
  intros H. cbn [gv]. unfold dict_mem, dict_get.
  destruct H as [->|(v & -> & ->)]; reflexivity.
Qed.

(** X1.  Among the aliases of a field, the first one that is present with a
    non-blank value supplies the field: aliases listed before it that are
    missing or blank are passed over, aliases after it are not looked at. *)
Theorem gv_first_alias_wins (ex : pydict) (before after : list string)
    (k : string) (v : pyval) :
  dict_find ex (KStr k) = Some v ->
  str_nonblank v = true ->
  (forall k', In k' before ->
              dict_find ex (KStr k') = None
              \/ exists v', dict_find ex (KStr k') = Some v' /\ str_nonblank v' = false) ->
  gv ex (before ++ k :: after)%list = v.
Proof.
  intros Hk Hv. induction before as [|b before IH]; intros Hskip.
  - cbn [app gv]. unfold dict_mem, dict_get. now rewrite Hk, Hv.
  - cbn [app]. rewrite gv_skip by (apply Hskip; now left).
    apply IH. intros k' Hin. apply Hskip. now right.
Qed.

Lemma gv_first_alias_wins_witness :
  make (summarize_exif [(KStr "XMP:Make", VStr "Canon"); (KStr "Make", VStr "  ");
                        (KStr "EXIF:Make", VStr "Nikon")])
  = VStr "Nikon".
Proof.
  apply (@gv_first_alias_wins
           [(KStr "XMP:Make", VStr "Canon"); (KStr "Make", VStr "  ");
            (KStr "EXIF:Make", VStr "Nikon")]
           ["Make"] ["XMP:Make"] "EXIF:Make" (VStr "Nikon") eq_refl eq_refl).
  intros k' [<-|[]]. right. exists (VStr "  "). split; reflexivity.
Defined.

Lemma contains_sep_cons sep c t :
  str_contains (String sep EmptyString) (String c t)
  = Ascii.eqb sep c || str_contains (String sep EmptyString) t.
Proof. cbn [str_contains prefix_of]. now rewrite andb_true_r. Qed.

Lemma after_last_no_sep sep s :
  str_contains (String sep EmptyString) (after_last sep s) = false.
Proof.
  induction s as [|c t IH]; [reflexivity|]. cbn [after_last].
  destruct (Ascii.eqb c sep) eqn:Hc; [exact IH|].
  destruct (str_contains (String sep EmptyString) t) eqn:Ht; [exact IH|].
  rewrite contains_sep_cons, Ht, Ascii.eqb_sym, Hc. reflexivity.
Qed.

(** X2.  The serial list of a summary holds exactly the entries of the
    metadata whose key contains the text serial in any letter case and whose
    value is not blank, each under the part of its key after the last colon;
    that short key holds no colon. *)
Theorem serials_of_summary (ex : pydict) (short : string) (v : pyval) :
  (In (short, v) (serials (summarize_exif ex))
   <-> exists k, In (KStr k, v) ex
                 /\ str_contains "serial" (lower k) = true
                 /\ str_nonblank v = true
                 /\ short = after_last ":" k)
  /\ (In (short, v) (serials (summarize_exif ex)) -> str_contains ":" short = false).
Proof.
  assert (Hiff : In (short, v) (serials (summarize_exif ex))
                 <-> exists k, In (KStr k, v) ex
                               /\ str_contains "serial" (lower k) = true
                               /\ str_nonblank v = true
                               /\ short = after_last ":" k).
  { unfold summarize_exif. cbn [serials]. rewrite in_flat_map. split.
    - intros [[key val] [Hin Hentry]]. unfold serial_entry in Hentry. cbn [fst snd] in Hentry.
      destruct key as [z|k]; [destruct Hentry|].
      destruct (str_contains "serial" (lower k) && str_nonblank val) eqn:Hc;
        [|destruct Hentry].
      destruct Hentry as [[= <- <-]|[]].
      apply andb_true_iff in Hc. exists k. tauto.
    - intros (k & Hin & Hs & Hv & ->). exists (KStr k, v). split; [exact Hin|].
      unfold serial_entry. cbn [fst snd]. rewrite Hs, Hv. now left. }
  split; [exact Hiff|].
  intros Hin. apply Hiff in Hin. destruct Hin as (k & _ & _ & _ & ->).
  apply after_last_no_sep.
Qed.

(** ** What the builder can produce *)

(** X3.  Whatever is requested, [build_strip_args] lists no directive twice,
    and each directive it lists is one of the sixteen fixed ones, of the form
    that assigns the empty value to a tag: the builder can only ask for
    deletions. *)
Theorem build_strip_args_only_clears (categories : list string) :
  NoDup (build_strip_args categories)
  /\ forall d, In d (build_strip_args categories) ->
               exists tag, In tag all_tags /\ d = clear_tag tag.
Proof.
  assert (Hall : (GPS_ARGS ++ DEVICE_ARGS ++ DATETIME_ARGS)%list = map clear_tag all_tags)
    by reflexivity.
  assert (Hsub : exists skipped1 skipped2 skipped3 : bool,
             build_strip_args categories
             = ((if skipped1 then [] else GPS_ARGS)
                ++ (if skipped2 then [] else DEVICE_ARGS)
                ++ (if skipped3 then [] else DATETIME_ARGS))%list).
  { unfold build_strip_args.
    exists (negb (str_in "gps" categories)), (negb (str_in "device" categories)),
      (negb (str_in "datetime" categories)).
    destruct (str_in "gps" categories), (str_in "device" categories),
      (str_in "datetime" categories); reflexivity. }
  destruct Hsub as (s1 & s2 & s3 & ->).
  split.
  - destruct s1, s2, s3; cbv [GPS_ARGS DEVICE_ARGS DATETIME_ARGS app];
      repeat (constructor; [simpl; intuition discriminate|]); constructor.
  - intros d Hin.
    assert (Hin' : In d (GPS_ARGS ++ DEVICE_ARGS ++ DATETIME_ARGS)%list).
    { rewrite !in_app_iff in *. destruct s1, s2, s3; simpl in Hin |- *; tauto. }
    rewrite Hall in Hin'. apply in_map_iff in Hin'.
    destruct Hin' as (tag & <- & Htag). now exists tag.
Qed.

(** ** The fallback converts both coordinates or neither *)

Section Coordinates.

Variables Raster Font Session : Type.
Variable w : World Raster Font Session.

Hypothesis tag1 : GPSTAGS w 1 = Some "GPSLatitudeRef".
Hypothesis tag2 : GPSTAGS w 2 = Some "GPSLatitude".
Hypothesis tag3 : GPSTAGS w 3 = Some "GPSLongitudeRef".
Hypothesis tag4 : GPSTAGS w 4 = Some "GPSLongitude".


End Coordinates.


(** ** Watermark opacity, and the modes JPEG takes *)

Section Pixels.

Variables Raster Font Session : Type.
Variable w : World Raster Font Session.

(** X5.  [add_watermark] clamps the opacity to the range 10..255: an opacity
    gives the same image as its clamped value, so everything up to 10 acts as
    10 and everything from 255 on as 255. *)
Theorem add_watermark_clamps_opacity (img : Image Raster) (text : string) (opacity : Z) :
  add_watermark w img text opacity
  = add_watermark w img text (Z.max 10 (Z.min opacity 255))
  /\ (opacity <= 10 -> add_watermark w img text opacity = add_watermark w img text 10)
  /\ (255 <= opacity -> add_watermark w img text opacity = add_watermark w img text 255).
Proof.
  assert (H : forall a b, Z.max 10 (Z.min a 255) = Z.max 10 (Z.min b 255) ->
                          add_watermark w img text a = add_watermark w img text b).
  { intros a b Hab. unfold add_watermark. now rewrite Hab. }
  repeat split; intros; apply H; lia.
Qed.

(** X6.  Whatever [ensure_rgb] returns is an image of the same size whose
    mode is none of RGBA, LA and P, and applying [ensure_rgb] to it returns
    it again; an image in any other mode is returned as it is.  It raises
    only when the mode is one of the three and PIL's conversion to RGB
    raises. *)
Theorem ensure_rgb_jpeg_ready (img : Image Raster) :
  (forall out, ensure_rgb w img = Ok out ->
               str_in (mode out) ["RGBA"; "LA"; "P"] = false
               /\ size out = size img
               /\ ensure_rgb w out = Ok out)
  /\ (str_in (mode img) ["RGBA"; "LA"; "P"] = false -> ensure_rgb w img = Ok img)
  /\ (forall e, ensure_rgb w img = Raise e ->
                str_in (mode img) ["RGBA"; "LA"; "P"] = true
                /\ exists descr,
                     convert_raster w (mode img) "RGB" (raster img) = Fails descr
                     /\ e = External descr).
Proof.
  unfold ensure_rgb, convert. split; [|split].
  - intros out.
    destruct (str_in (mode img) ["RGBA"; "LA"; "P"]) eqn:E.
    + destruct (convert_raster w (mode img) "RGB" (raster img)) as [r|d];
        [|discriminate].
      cbn [call rbind]. intros [= <-]. repeat split.
    + intros [= <-]. rewrite E. repeat split.
  - now intros ->.
  - intros e. destruct (str_in (mode img) ["RGBA"; "LA"; "P"]); [|discriminate].
    destruct (convert_raster w (mode img) "RGB" (raster img)) as [r|d];
      [discriminate|].
    intros [= <-]. split; [reflexivity|]. now exists d.
Qed.

End Pixels.

(** ** The actions and the single-image state *)

Section ActionsProps.

Variables Raster Font Session : Type.
Variable w : World Raster Font Session.

Ltac run_calls :=
  repeat match goal with
         | |- context [call ?o] => destruct o; cbn
         end.

Ltac run_set_from_bytes data h st s :=
  unfold _set_from_bytes, bind, modify, gets, lift, wrapper, tempfile_used, messagebox,
    _update_buttons, _scale_preview, _render_details, ret;
  destruct (Image_open w data) as [?im|?d]; cbn;
  [ destruct (read_exif_from_bytes w (tempfiles s) data
                (match h with Some x => str_or x (current_ext s) | None => current_ext s end))
      as [?ex|?e]; cbn;
    [ destruct (exiftool w), st as [?t|]; try destruct (str_truthy t); run_calls; auto
    | destruct (exiftool w); auto ]
  | run_calls; auto ].

Lemma set_from_bytes_snapshot data h st (s : App Raster Session) :
  keeps_snapshot s (snd (_set_from_bytes w data h st s)).
Proof. unfold keeps_snapshot. run_set_from_bytes data h st s. Qed.

Lemma set_from_bytes_session data h st (s : App Raster Session) :
  _rembg_session (snd (_set_from_bytes w data h st s)) = _rembg_session s.
Proof. run_set_from_bytes data h st s. Qed.

Lemma keeps_snapshot_refl (s : App Raster Session) : keeps_snapshot s s.
Proof. repeat split. Qed.

Lemma keeps_snapshot_trans (s1 s2 s3 : App Raster Session) :
  keeps_snapshot s1 s2 -> keeps_snapshot s2 s3 -> keeps_snapshot s1 s3.
Proof. unfold keeps_snapshot. intros (? & ? & ?) (? & ? & ?). repeat split; congruence. Qed.

Lemma with_session_snapshot (s : App Raster Session) :
  keeps_snapshot s (with_session w s).
Proof.
  unfold with_session, keeps_snapshot.
  destruct (REMBG_OK w), (_rembg_session s), (new_session w "u2net"); repeat split.
Qed.

Lemma tempfile_used_snapshot (s : App Raster Session) :
  keeps_snapshot s (tempfile_used w s).
Proof. unfold tempfile_used, keeps_snapshot. destruct (exiftool w); repeat split. Qed.

Lemma staged_snapshot (s : App Raster Session) data :
  keeps_snapshot s (staged w s data).
Proof.
  unfold staged. destruct (stage_background w _ data _).
  - exact (keeps_snapshot_trans (with_session_snapshot s)
             (tempfile_used_snapshot (with_session w s))).
  - apply with_session_snapshot.
Qed.

Lemma add_dialog_snapshot d (s : App Raster Session) : keeps_snapshot s (add_dialog d s).
Proof. repeat split. Qed.

Lemma caught_snapshot ttl data h st (s : App Raster Session) :
  keeps_snapshot s (snd (caught ttl (_set_from_bytes w data h st) s)).
Proof.
  pose proof (set_from_bytes_snapshot data h st s) as H.
  unfold caught, try_exceptM.
  destruct (_set_from_bytes w data h st s) as [[[]|e] s1]; cbn in *; exact H.
Qed.

(** Under the except clause of an action [_set_from_bytes] leaves the
    ImageState it leaves on its own. *)
Lemma caught_image ttl data h st0 st (s0 s : App Raster Session) :
  current_ext s0 = current_ext s ->
  current_exif s0 = current_exif s ->
  tempfiles s0 = tempfiles s ->
  image_state (snd (caught ttl (_set_from_bytes w data h st0) s0))
  = image_state (snd (_set_from_bytes w data h st s)).
Proof.
  intros Hext Hexif Hn.
  destruct (caught_set_from_bytes w ttl data h st0 s0) as (_ & -> & _).
  now apply set_from_bytes_image_from.
Qed.

Lemma caught_returns ttl data h st (s : App Raster Session) :
  fst (caught ttl (_set_from_bytes w data h st) s) = Ok tt.
Proof. apply (caught_set_from_bytes w ttl data h st s). Qed.

Lemma image_in_step_ext (s0 s : App Raster Session) :
  image_state s0 = image_state s -> image_in_step w s -> image_in_step w s0.
Proof.
  unfold image_state, image_in_step. intros [= -> -> _ _]. auto.
Qed.

Lemma set_from_bytes_makes_in_step data h st (s : App Raster Session) :
  current_bytes (snd (_set_from_bytes w data h st s)) = Some data
  /\ image_in_step w (snd (_set_from_bytes w data h st s)).
Proof.
  pose proof (proj1 (set_from_bytes_state w data h st s)) as H.
  unfold image_state in H. unfold image_in_step.
  destruct (Image_open w data) as [im|d] eqn:Hopen;
    injection H as Hb Hi _ _; rewrite Hb, Hopen; auto.
Qed.

Lemma installs_in_step (s s' : App Raster Session) :
  installs w s s' -> image_in_step w s -> image_in_step w s'.
Proof.
  intros [H|(data & h & st & s0 & H)] Hs.
  - exact (image_in_step_ext H Hs).
  - apply (image_in_step_ext H). apply set_from_bytes_makes_in_step.
Qed.

(** X7.  Whatever bytes [_set_from_bytes] is given, it leaves them current
    with the image PIL decodes from them, or without image, with empty
    metadata and an error box when they do not decode; the snapshot of the
    opened file is not touched.  The metadata is that of the new bytes when
    reading it returns.  When the read raises (the temporary file for
    ExifTool cannot be made), [_set_from_bytes] raises that error with the
    bytes, the image and the hint already replaced: the metadata and the
    status line are still those of before.  With widgets that refresh, it
    returns in every other case. *)
Theorem set_from_bytes_in_step (data : bytes) (h st : option string)
    (s : App Raster Session) :
  let s' := snd (_set_from_bytes w data h st s) in
  let ext := hinted h (current_ext s) in
  current_bytes s' = Some data
  /\ image_in_step w s'
  /\ original_bytes s' = original_bytes s
  /\ original_path s' = original_path s
  /\ (forall d, Image_open w data = Fails d ->
                current_image s' = None
                /\ current_exif s' = empty_dict
                /\ current_ext s' = current_ext s
                /\ dialogs s' = open_dialog d :: dialogs s)
  /\ (forall im, Image_open w data = Returns im ->
                 current_image s' = Some im
                 /\ current_ext s' = ext
                 /\ dialogs s' = dialogs s
                 /\ (forall ex, read_exif_from_bytes w (tempfiles s) data ext = Ok ex ->
                                current_exif s' = ex)
                 /\ (forall e, read_exif_from_bytes w (tempfiles s) data ext = Raise e ->
                               fst (_set_from_bytes w data h st s) = Raise e
                               /\ current_exif s' = current_exif s
                               /\ status s' = status s))
  /\ (refresh_succeeds w ->
      (exists d, Image_open w data = Fails d)
      \/ (exists ex, read_exif_from_bytes w (tempfiles s) data ext = Ok ex) ->
      fst (_set_from_bytes w data h st s) = Ok tt).
Proof.
  cbv zeta.
  destruct (set_from_bytes_makes_in_step data h st s) as (Hb & Hc).
  destruct (set_from_bytes_state w data h st s) as (Hst & Hd & _).
  destruct (set_from_bytes_snapshot data h st s) as (Ho & Hp & _).
  unfold image_state, metadata in Hst.
  split; [exact Hb|]. split; [exact Hc|]. split; [exact Ho|]. split; [exact Hp|].
  split; [|split; [|apply set_from_bytes_returns]].
  - intros d Hopen. rewrite Hopen in Hst, Hd. injection Hst as _ Hi He Hx. auto.
  - intros im Hopen. rewrite Hopen in Hst, Hd. injection Hst as _ Hi He Hx.
    split; [exact Hi|]. split; [exact Hx|]. split; [exact Hd|]. split.
    + intros ex Hread. now rewrite Hread in He.
    + intros e Hread.
      destruct (set_from_bytes_read_raises w data h st s Hopen Hread) as (Hr & Hs & Hx').
      auto.
Qed.

(** The three shapes a run of an action takes. *)
Lemma idle_step (s : App Raster Session) :
  installs w s s /\ keeps_snapshot s s.
Proof. split; [now left | apply keeps_snapshot_refl]. Qed.

Lemma failed_step d (s0 s : App Raster Session) :
  image_state s0 = image_state s -> keeps_snapshot s s0 ->
  installs w s (add_dialog d s0) /\ keeps_snapshot s (add_dialog d s0).
Proof.
  intros Hi Hk. split; [left; exact Hi|].
  exact (keeps_snapshot_trans Hk (add_dialog_snapshot d s0)).
Qed.

Lemma installed_step ttl data h st (s0 s : App Raster Session) :
  keeps_snapshot s s0 ->
  installs w s (snd (caught ttl (_set_from_bytes w data h st) s0))
  /\ keeps_snapshot s (snd (caught ttl (_set_from_bytes w data h st) s0)).
Proof.
  intros Hk. split.
  - right. exists data, h, st, s0. now apply caught_image.
  - exact (keeps_snapshot_trans Hk (caught_snapshot ttl data h st s0)).
Qed.

Lemma action_safe_step (s : App Raster Session) :
  fst (action_safe w s) = Ok tt
  /\ installs w s (snd (action_safe w s))
  /\ keeps_snapshot s (snd (action_safe w s)).
Proof.
  destruct (current_bytes s) as [[|b data]|] eqn:Hcur.
  - rewrite (action_safe_idle w s) by auto. split; [reflexivity|apply idle_step].
  - assert (Hne : b :: data <> []) by discriminate.
    destruct (var_striponly s) eqn:Hmode.
    + rewrite (action_safe_strip_only w s Hcur Hne Hmode).
      destruct (exiftool w).
      * destruct (exiftool_write_from_bytes w (tempfiles s) (b :: data) _ (current_ext s)).
        -- split; [apply caught_returns|].
           apply installed_step, tempfile_used_snapshot.
        -- split; [reflexivity|].
           apply failed_step; [apply tempfile_used_image|apply tempfile_used_snapshot].
      * split; [reflexivity|].
        apply failed_step; [reflexivity|apply keeps_snapshot_refl].
    + rewrite (action_safe_full w s Hcur Hne Hmode).
      destruct (full_pipeline w (tempfiles s) (_rembg_session s) (b :: data) (current_ext s))
        as [[png ext]|e].
      * split; [apply caught_returns|].
        apply installed_step, staged_snapshot.
      * split; [reflexivity|].
        apply failed_step; [apply staged_image|apply staged_snapshot].
  - rewrite (action_safe_idle w s) by auto. split; [reflexivity|apply idle_step].
Qed.

(** X8.  A SAFE run keeps the image in step with the bytes: if the decoded
    image was that of the current bytes before the run, it is so after it,
    however the run ends. *)
Theorem action_safe_keeps_in_step (s : App Raster Session) :
  image_in_step w s -> image_in_step w (snd (action_safe w s)).
Proof.
  apply installs_in_step. apply action_safe_step.
Qed.

(** X9.  [action_safe] never raises to its caller, in either mode and
    whatever the tools and the widgets do; and it never touches the snapshot
    of the opened file or the strip-only switch. *)
Theorem action_safe_never_raises (s : App Raster Session) :
  fst (action_safe w s) = Ok tt
  /\ original_bytes (snd (action_safe w s)) = original_bytes s
  /\ original_path (snd (action_safe w s)) = original_path s
  /\ var_striponly (snd (action_safe w s)) = var_striponly s.
Proof.
  destruct (action_safe_step s) as (Hr & _ & Hk). split; [exact Hr|exact Hk].
Qed.

Lemma caught_read_raises ttl data h st (s : App Raster Session) im e :
  Image_open w data = Returns im ->
  read_exif_from_bytes w (tempfiles s) data (hinted h (current_ext s)) = Raise e ->
  let s' := snd (caught ttl (_set_from_bytes w data h st) s) in
  image_state s' = (Some data, Some im, current_exif s, hinted h (current_ext s))
  /\ dialogs s' = stage_dialog ttl e :: dialogs s
  /\ status s' = status s.
Proof.
  intros Hopen Hread. cbv zeta.
  destruct (set_from_bytes_read_raises w data h st s Hopen Hread) as (Hr & Hs & _).
  destruct (set_from_bytes_state w data h st s) as (Hst & Hd & _).
  rewrite Hopen in Hst, Hd. unfold metadata in Hst. rewrite Hread in Hst.
  unfold caught, try_exceptM.
  destruct (_set_from_bytes w data h st s) as [r s1]. cbn [fst snd] in *. subst r.
  cbn. repeat split; [exact Hst|now rewrite Hd|exact Hs].
Qed.

(** X27.  When the stages of a SAFE run succeed and their result decodes,
    but reading its metadata raises (the temporary file cannot be made), the
    run does not raise: it reports the error, and leaves the new bytes, the
    new image and the new hint in place next to the metadata and the status
    line of before. *)
Theorem safe_read_failure_state (s : App Raster Session) (data out : bytes)
    (im : Image Raster) (e : exn) :
  current_bytes s = Some data -> data <> [] ->
  safe_result w s data = Ok out ->
  Image_open w out = Returns im ->
  let hint := if var_striponly s then current_ext s else ".png" in
  read_exif_from_bytes w (tempfiles (tempfile_used w s)) out hint = Raise e ->
  let s' := snd (action_safe w s) in
  fst (action_safe w s) = Ok tt
  /\ image_state s' = (Some out, Some im, current_exif s, hint)
  /\ dialogs s'
     = stage_dialog (if var_striponly s then "SAFE (strip-only)" else "SAFE (full)") e
       :: dialogs s
  /\ status s' = status s.
Proof.
  intros Hcur Hne Hres Hopen hint Hread s'. subst s' hint.
  split; [apply action_safe_step|].
  destruct (var_striponly s) eqn:Hmode.
  - rewrite (action_safe_strip_only w s Hcur Hne Hmode).
    unfold safe_result in Hres. rewrite Hmode in Hres.
    destruct (exiftool w) as [tool|] eqn:Htool;
      [|rewrite (write_unavailable w _ data _ _ Htool) in Hres; discriminate].
    rewrite Hres.
    assert (Hread' : read_exif_from_bytes w (tempfiles (tempfile_used w s)) out
                       (hinted (Some (current_ext s)) (current_ext (tempfile_used w s)))
                     = Raise e).
    { cbn [hinted]. rewrite tempfile_used_ext, str_or_same. exact Hread. }
    destruct (caught_read_raises "SAFE (strip-only)" out (Some (current_ext s))
                (Some strip_only_status) (tempfile_used w s) Hopen Hread')
      as (Hst & Hd & Hs).
    cbn [hinted] in Hst. rewrite tempfile_used_ext, str_or_same in Hst.
    pose proof (tempfile_used_image w s) as Hi. unfold image_state in Hi.
    split; [rewrite Hst; f_equal; f_equal; congruence|].
    split; [now rewrite Hd, tempfile_used_dialogs|].
    rewrite Hs. unfold tempfile_used. now destruct (exiftool w).
  - rewrite (action_safe_full w s Hcur Hne Hmode).
    rewrite (safe_result_full w s data Hmode) in Hres.
    destruct (full_pipeline w (tempfiles s) (_rembg_session s) data (current_ext s))
      as [[png ext]|e'] eqn:Hrun; [|discriminate].
    injection Hres as ->.
    rewrite (staged_run w s data Hrun).
    assert (Hn : tempfiles (tempfile_used w (with_session w s))
                 = tempfiles (tempfile_used w s)).
    { unfold tempfile_used. destruct (exiftool w); cbn;
        now rewrite with_session_tempfiles. }
    assert (Hread' : read_exif_from_bytes w (tempfiles (tempfile_used w (with_session w s)))
                       out
                       (hinted (Some ".png")
                          (current_ext (tempfile_used w (with_session w s))))
                     = Raise e).
    { rewrite Hn. exact Hread. }
    destruct (caught_read_raises "SAFE (full)" out (Some ".png") (Some full_status)
                (tempfile_used w (with_session w s)) Hopen Hread') as (Hst & Hd & Hs).
    cbn [hinted str_or str_truthy] in Hst.
    pose proof (tempfile_used_image w (with_session w s)) as Hi.
    pose proof (with_session_image w s) as Hj. unfold image_state in Hi, Hj.
    split; [rewrite Hst; f_equal; f_equal; congruence|].
    split; [now rewrite Hd, tempfile_used_dialogs, with_session_dialogs|].
    rewrite Hs. unfold tempfile_used, with_session.
    destruct (exiftool w), (REMBG_OK w), (_rembg_session s), (new_session w "u2net");
      reflexivity.
Qed.

End ActionsProps.

(** A strip-only run on a disk that takes one more file: the writer gets
    its temporary file, the read that follows does not. *)
Lemma safe_read_failure_state_witness :
  let w := with_full_disk 1 (sample_world None "    1 image files unchanged" known_magic) in
  let s := set_current_exif (VDict [(KStr "Make", VStr "Canon")])
             (sample_state true jpeg_bytes (Some sample_image) ".jpg") in
  fst (action_safe w s) = Ok tt
  /\ image_state (snd (action_safe w s))
     = (Some jpeg_bytes, Some sample_image, VDict [(KStr "Make", VStr "Canon")], ".jpg")
  /\ dialogs (snd (action_safe w s))
     = [stage_dialog "SAFE (strip-only)" (External "OSError")].
Proof.
  exact (let H := @safe_read_failure_state unit unit unit
                    (with_full_disk 1
                       (sample_world None "    1 image files unchanged" known_magic))
                    (set_current_exif (VDict [(KStr "Make", VStr "Canon")])
                       (sample_state true jpeg_bytes (Some sample_image) ".jpg"))
                    jpeg_bytes jpeg_bytes sample_image (External "OSError")
                    eq_refl
                    (fun H => eq_ind jpeg_bytes
                                (fun l => match l with [] => False | _ => True end) I [] H)
                    eq_refl eq_refl eq_refl
         in conj (proj1 H) (conj (proj1 (proj2 H)) (proj1 (proj2 (proj2 H))))).
Defined.

(** A hint under which no temporary file can be made: the new bytes and
    their image are in place, the metadata are those of the file before. *)
Lemma set_from_bytes_stale_metadata :
  let w := sample_world None EmptyString known_magic in
  let s := set_current_exif (VDict [(KStr "Make", VStr "Canon")])
             (sample_state false jpeg_bytes (Some sample_image) ".jpg") in
  let run := _set_from_bytes w png_bytes (Some "/x.png") (Some "Loaded.") s in
  fst run = Raise (External "FileNotFoundError")
  /\ image_state (snd run)
     = (Some png_bytes, Some sample_image, VDict [(KStr "Make", VStr "Canon")], "/x.png")
  /\ status (snd run) = "Loaded.".
Proof. repeat split. Qed.

(** A full run on a freshly opened JPEG. *)
Lemma action_safe_keeps_in_step_witness :
  image_in_step (sample_world None "    1 image files unchanged" known_magic)
    (snd (action_safe (sample_world None "    1 image files unchanged" known_magic)
            (sample_state false jpeg_bytes (Some sample_image) ".jpg"))).
Proof.
  apply (@action_safe_keeps_in_step unit unit unit
           (sample_world None "    1 image files unchanged" known_magic)
           (sample_state false jpeg_bytes (Some sample_image) ".jpg")).
  reflexivity.
Defined.

(** ** The single-stage actions *)

Section Buttons.

Variables Raster Font Session : Type.
Variable w : World Raster Font Session.

Lemma action_strip_eq kind (s : App Raster Session) data :
  current_bytes s = Some data -> data <> [] ->
  action_strip w kind s
  = match exiftool w with
    | None => (Ok tt, add_dialog strip_tool_required s)
    | Some _ =>
        match exiftool_write_from_bytes w (tempfiles s) data
                (build_strip_args (split_char "," kind)) (current_ext s) with
        | Ok out =>
            caught "Strip metadata"
              (_set_from_bytes w out (Some (current_ext s))
                 (Some ("Stripped: " ++ kind ++ "."))) (tempfile_used w s)
        | Raise e =>
            (Ok tt, add_dialog (stage_dialog "Strip metadata" e) (tempfile_used w s))
        end
    end.
Proof.
  intros Hcur Hne.
  unfold action_strip, bind, gets, ret. rewrite Hcur.
  destruct data as [|b data]; [congruence|].
  destruct (exiftool w) as [tool|]; [|reflexivity].
  unfold caught, try_exceptM, bind, gets, lift, wrapper.
  destruct (exiftool_write_from_bytes w (tempfiles s) (b :: data) _ (current_ext s))
    as [out|e]; [|reflexivity].
  now rewrite tempfile_used_ext.
Qed.

Lemma action_strip_all_eq (s : App Raster Session) data :
  current_bytes s = Some data -> data <> [] ->
  action_strip_all w s
  = match (opened <- open_image_any w data ;;
           img <- convert w opened "RGBA" ;;
           to_png_bytes w img)%result with
    | Ok png =>
        caught "Strip ALL"
          (_set_from_bytes w png (Some ".png")
             (Some "Stripped ALL metadata (PNG re-encode).")) s
    | Raise e => (Ok tt, add_dialog (stage_dialog "Strip ALL" e) s)
    end.
Proof.
  intros Hcur Hne.
  unfold action_strip_all, bind, gets, ret. rewrite Hcur.
  destruct data as [|b data]; [congruence|].
  unfold caught, try_exceptM, bind, gets, lift.
  destruct (open_image_any w (b :: data)) as [opened|e]; [|reflexivity]. cbn [rbind].
  destruct (convert w opened "RGBA") as [img|e]; [|reflexivity]. cbn [rbind].
  destruct (to_png_bytes w img) as [png|e]; reflexivity.
Qed.

Lemma action_watermark_eq (s : App Raster Session) data :
  current_bytes s = Some data -> data <> [] ->
  action_watermark w s
  = match stage_watermark w (data, current_ext s) with
    | Ok (png, _) =>
        caught "Watermark" (_set_from_bytes w png (Some ".png") (Some watermark_status)) s
    | Raise e => (Ok tt, add_dialog (stage_dialog "Watermark" e) s)
    end.
Proof.
  intros Hcur Hne.
  unfold action_watermark, stage_watermark, bind, gets, ret. rewrite Hcur.
  destruct data as [|b data]; [congruence|].
  unfold caught, try_exceptM, bind, gets, lift. cbn [fst].
  destruct (open_image_any w (b :: data)) as [opened|e]; [|reflexivity]. cbn [rbind].
  destruct (add_watermark w opened "SAFE" 160) as [marked|e]; [|reflexivity].
  cbn [rbind].
  destruct (to_png_bytes w marked) as [png|e]; reflexivity.
Qed.

Lemma action_remove_bg_eq (s : App Raster Session) data :
  current_bytes s = Some data -> data <> [] -> REMBG_OK w = true ->
  action_remove_bg w s
  = match stage_background w (_rembg_session s) data (current_ext s) with
    | Ok (out, _) =>
        caught "Remove Background"
          (_set_from_bytes w out (Some ".png") (Some "Background removed."))
          (with_session w s)
    | Raise e =>
        (Ok tt, add_dialog (stage_dialog "Remove Background" e) (with_session w s))
    end.
Proof.
  intros Hcur Hne Hbg.
  unfold action_remove_bg, stage_background, with_session, bind, gets, ret.
  rewrite Hcur, Hbg.
  destruct data as [|b data]; [congruence|].
  unfold caught, try_exceptM, rembg_session, bind, gets, lift, ret, modify.
  destruct (_rembg_session s) as [sess|].
  - rewrite Hcur. cbn [rbind].
    destruct (remove w (b :: data) sess) as [out|d]; reflexivity.
  - destruct (new_session w "u2net") as [sess|d]; cbn [call rbind]; [|reflexivity].
    cbn [current_bytes set_rembg_session]. rewrite Hcur.
    destruct (remove w (b :: data) sess) as [out|d]; reflexivity.
Qed.

Lemma action_remove_bg_idle (s : App Raster Session) :
  REMBG_OK w = false \/ current_bytes s = None \/ current_bytes s = Some [] ->
  action_remove_bg w s = (Ok tt, s).
Proof.
  unfold action_remove_bg, bind, gets, ret.
  intros [H|[H|H]]; rewrite H; [|now destruct (REMBG_OK w)..].
  now destruct (current_bytes s) as [[|]|].
Qed.

Lemma with_session_exif (s : App Raster Session) :
  current_exif (with_session w s) = current_exif s.
Proof.
  pose proof (with_session_image w s) as H. unfold image_state in H. congruence.
Qed.

(** X10.  A strip button clears exactly its category, with the current
    format hint; a request of several names separated by commas clears the
    categories among them.  Without ExifTool the button only warns; when the
    writer raises, the error is reported and the ImageState stays; when it
    returns, its output becomes current under the same hint, from the state
    in which the writer has used its temporary file.  The action itself never
    raises. *)
Theorem action_strip_outcome (kind : string) (s : App Raster Session) (data : bytes) :
  current_bytes s = Some data -> data <> [] ->
  let s' := snd (action_strip w kind s) in
  fst (action_strip w kind s) = Ok tt
  /\ (forall c, build_strip_args (split_char "," (category_name c)) = directives c)
  /\ build_strip_args (split_char "," "gps,device,datetime")
     = (GPS_ARGS ++ DEVICE_ARGS ++ DATETIME_ARGS)%list
  /\ match exiftool w with
     | None =>
         image_state s' = image_state s
         /\ dialogs s' = strip_tool_required :: dialogs s
     | Some _ =>
         match exiftool_write_from_bytes w (tempfiles s) data
                 (build_strip_args (split_char "," kind)) (current_ext s) with
         | Ok out =>
             image_state s'
             = image_state (snd (_set_from_bytes w out (Some (current_ext s)) None
                                   (tempfile_used w s)))
         | Raise e =>
             image_state s' = image_state s
             /\ dialogs s' = stage_dialog "Strip metadata" e :: dialogs s
         end
     end.
Proof.
  intros Hcur Hne s'. subst s'. rewrite (action_strip_eq kind s Hcur Hne).
  split; [|split; [|split]].
  - destruct (exiftool w); [|reflexivity].
    destruct (exiftool_write_from_bytes w (tempfiles s) data _ (current_ext s));
      [|reflexivity].
    apply caught_returns.
  - now intros [].
  - reflexivity.
  - destruct (exiftool w); [|split; reflexivity].
    destruct (exiftool_write_from_bytes w (tempfiles s) data _ (current_ext s)).
    + now apply caught_image.
    + cbn [snd]. split; [apply tempfile_used_image|].
      cbn. now rewrite tempfile_used_dialogs.
Qed.

(** X11.  Strip-all re-encodes: when the current bytes decode, the image
    converts to RGBA and encodes, the PNG bytes become current under the PNG
    hint; when one of these steps raises, the error is reported and the
    ImageState stays.  The action never raises. *)
Theorem action_strip_all_outcome (s : App Raster Session) (data : bytes) :
  current_bytes s = Some data -> data <> [] ->
  let s' := snd (action_strip_all w s) in
  fst (action_strip_all w s) = Ok tt
  /\ match (opened <- open_image_any w data ;;
            img <- convert w opened "RGBA" ;;
            to_png_bytes w img)%result with
     | Ok png =>
         image_state s'
         = image_state (snd (_set_from_bytes w png (Some ".png") None s))
     | Raise e =>
         image_state s' = image_state s
         /\ dialogs s' = stage_dialog "Strip ALL" e :: dialogs s
     end.
Proof.
  intros Hcur Hne s'. subst s'. rewrite (action_strip_all_eq s Hcur Hne).
  destruct (opened <- open_image_any w data ;;
            img <- convert w opened "RGBA" ;; to_png_bytes w img)%result
    as [png|e].
  - split; [apply caught_returns|]. now apply caught_image.
  - repeat split.
Qed.

(** X12.  The watermark button runs the watermark stage of the pipeline on
    the current bytes: its PNG output becomes current under the PNG hint;
    when decoding, watermarking or encoding raises, the error is reported and
    the ImageState stays.  The action never raises. *)
Theorem action_watermark_outcome (s : App Raster Session) (data : bytes) :
  current_bytes s = Some data -> data <> [] ->
  let s' := snd (action_watermark w s) in
  fst (action_watermark w s) = Ok tt
  /\ match stage_watermark w (data, current_ext s) with
     | Ok (png, _) =>
         image_state s'
         = image_state (snd (_set_from_bytes w png (Some ".png") None s))
     | Raise e =>
         image_state s' = image_state s
         /\ dialogs s' = stage_dialog "Watermark" e :: dialogs s
     end.
Proof.
  intros Hcur Hne s'. subst s'. rewrite (action_watermark_eq s Hcur Hne).
  destruct (stage_watermark w (data, current_ext s)) as [[png ext]|e].
  - split; [apply caught_returns|]. now apply caught_image.
  - repeat split.
Qed.

(** X13.  Background removal does nothing at all when rembg is missing.
    When it is there, the action runs the background stage of the pipeline:
    the output becomes current under the PNG hint, a failure is reported and
    leaves the ImageState; a session that exists is kept, not replaced. *)
Theorem action_remove_bg_outcome (s : App Raster Session) (data : bytes) :
  current_bytes s = Some data -> data <> [] ->
  let s' := snd (action_remove_bg w s) in
  fst (action_remove_bg w s) = Ok tt
  /\ (REMBG_OK w = false -> s' = s)
  /\ (REMBG_OK w = true ->
      match stage_background w (_rembg_session s) data (current_ext s) with
      | Ok (out, _) =>
          image_state s'
          = image_state (snd (_set_from_bytes w out (Some ".png") None s))
      | Raise e =>
          image_state s' = image_state s
          /\ dialogs s' = stage_dialog "Remove Background" e :: dialogs s
      end)
  /\ (forall sess, REMBG_OK w = true -> _rembg_session s = Some sess ->
                   _rembg_session s' = Some sess).
Proof.
  intros Hcur Hne s'. subst s'.
  destruct (REMBG_OK w) eqn:Hbg.
  - rewrite (action_remove_bg_eq s Hcur Hne Hbg).
    split; [|split; [discriminate|split]].
    + destruct (stage_background w (_rembg_session s) data (current_ext s)) as [[out ext]|e];
        [apply caught_returns|reflexivity].
    + intros _.
      destruct (stage_background w (_rembg_session s) data (current_ext s)) as [[out ext]|e].
      * apply caught_image;
          [apply with_session_ext|apply with_session_exif|apply with_session_tempfiles].
      * cbn [snd]. split; [apply with_session_image|].
        cbn. now rewrite with_session_dialogs.
    + intros sess _ Hsess.
      assert (Hws : with_session w s = s).
      { unfold with_session. now rewrite Hbg, Hsess. }
      rewrite Hws.
      destruct (stage_background w (_rembg_session s) data (current_ext s)) as [[out ext]|e].
      * unfold caught, try_exceptM.
        pose proof (set_from_bytes_session w out (Some ".png") (Some "Background removed.") s)
          as Hkeep.
        destruct (_set_from_bytes w out (Some ".png") (Some "Background removed.") s)
          as [[[]|e] s1]; cbn in *; congruence.
      * exact Hsess.
  - rewrite (action_remove_bg_idle s) by auto.
    repeat split; try discriminate.
Qed.

End Buttons.

(** The GPS button on a JPEG that carries no GPS tags: ExifTool leaves the
    file as it is, and the session stays on the same bytes. *)
Lemma action_strip_outcome_witness :
  let w := sample_world None "    1 image files unchanged" known_magic in
  let s := sample_state false jpeg_bytes (Some sample_image) ".jpg" in
  fst (action_strip w "gps" s) = Ok tt
  /\ image_state (snd (action_strip w "gps" s))
     = (Some jpeg_bytes, Some sample_image, empty_dict, ".jpg").
Proof.
  exact (let H := @action_strip_outcome unit unit unit
                    (sample_world None "    1 image files unchanged" known_magic)
                    "gps"
                    (sample_state false jpeg_bytes (Some sample_image) ".jpg")
                    jpeg_bytes eq_refl
                    (fun H => eq_ind jpeg_bytes
                                (fun l => match l with [] => False | _ => True end) I [] H)
         in conj (proj1 H) (proj2 (proj2 (proj2 H)))).
Defined.

(** Strip-all on a JPEG: the session moves to the PNG re-encoding. *)
Lemma action_strip_all_outcome_witness :
  let w := sample_world None EmptyString known_magic in
  let s := sample_state false jpeg_bytes (Some sample_image) ".jpg" in
  fst (action_strip_all w s) = Ok tt
  /\ image_state (snd (action_strip_all w s))
     = (Some [Byte.x89; Byte.x50; Byte.x4e; Byte.x47], Some sample_image,
        empty_dict, ".png").
Proof.
  exact (@action_strip_all_outcome unit unit unit
           (sample_world None EmptyString known_magic)
           (sample_state false jpeg_bytes (Some sample_image) ".jpg")
           jpeg_bytes eq_refl
           (fun H => eq_ind jpeg_bytes
                       (fun l => match l with [] => False | _ => True end) I [] H)).
Defined.

(** The watermark button on a JPEG. *)
Lemma action_watermark_outcome_witness :
  let w := sample_world None EmptyString known_magic in
  let s := sample_state true jpeg_bytes (Some sample_image) ".jpg" in
  fst (action_watermark w s) = Ok tt
  /\ image_state (snd (action_watermark w s))
     = (Some [Byte.x89; Byte.x50; Byte.x4e; Byte.x47], Some sample_image,
        empty_dict, ".png").
Proof.
  exact (@action_watermark_outcome unit unit unit
           (sample_world None EmptyString known_magic)
           (sample_state true jpeg_bytes (Some sample_image) ".jpg")
           jpeg_bytes eq_refl
           (fun H => eq_ind jpeg_bytes
                       (fun l => match l with [] => False | _ => True end) I [] H)).
Defined.

(** Where rembg is not installed, the background button leaves the session
    as it is. *)
Lemma action_remove_bg_outcome_witness :
  let w := sample_world None EmptyString known_magic in
  let s := sample_state false jpeg_bytes (Some sample_image) ".jpg" in
  fst (action_remove_bg w s) = Ok tt /\ snd (action_remove_bg w s) = s.
Proof.
  exact (let H := @action_remove_bg_outcome unit unit unit
                    (sample_world None EmptyString known_magic)
                    (sample_state false jpeg_bytes (Some sample_image) ".jpg")
                    jpeg_bytes eq_refl
                    (fun H => eq_ind jpeg_bytes
                                (fun l => match l with [] => False | _ => True end) I [] H)
         in conj (proj1 H) (proj1 (proj2 H) eq_refl)).
Defined.

(** ** How the actions relate *)

Section Relations.

Variables Raster Font Session : Type.
Variable w : World Raster Font Session.

Lemma action_watermark_idle (s : App Raster Session) :
  current_bytes s = None \/ current_bytes s = Some [] ->
  action_watermark w s = (Ok tt, s).
Proof.
  unfold action_watermark, bind, gets, ret. intros [H|H]; rewrite H; reflexivity.
Qed.

Lemma action_strip_idle kind (s : App Raster Session) :
  current_bytes s = None \/ current_bytes s = Some [] ->
  action_strip w kind s = (Ok tt, s).
Proof.
  unfold action_strip, bind, gets, ret. intros [H|H]; rewrite H; reflexivity.
Qed.

Lemma action_strip_all_idle (s : App Raster Session) :
  current_bytes s = None \/ current_bytes s = Some [] ->
  action_strip_all w s = (Ok tt, s).
Proof.
  unfold action_strip_all, bind, gets, ret. intros [H|H]; rewrite H; reflexivity.
Qed.

Lemma with_session_off (s : App Raster Session) :
  REMBG_OK w = false -> with_session w s = s.
Proof. unfold with_session. now intros ->. Qed.

Lemma tempfile_used_off (s : App Raster Session) :
  exiftool w = None -> tempfile_used w s = s.
Proof. unfold tempfile_used. now intros ->. Qed.

(** X14.  Where neither rembg nor ExifTool is to be had, a full SAFE run
    comes to the watermark button: both leave the same ImageState, from any
    state. *)
Theorem safe_without_tools_is_watermark (s : App Raster Session) :
  REMBG_OK w = false -> exiftool w = None -> var_striponly s = false ->
  image_state (snd (action_safe w s)) = image_state (snd (action_watermark w s)).
Proof.
  intros Hbg Htool Hmode.
  destruct (current_bytes s) as [[|b data]|] eqn:Hcur.
  - now rewrite action_safe_idle, action_watermark_idle by auto.
  - assert (Hne : b :: data <> []) by discriminate.
    rewrite (action_safe_full w s Hcur Hne Hmode), (action_watermark_eq w s Hcur Hne).
    assert (Hstaged : staged w s (b :: data) = s).
    { unfold staged, stage_background. rewrite Hbg.
      now rewrite (with_session_off s Hbg), (tempfile_used_off s Htool). }
    rewrite Hstaged.
    unfold full_pipeline, stage_background, stage_strip. rewrite Hbg, Htool.
    cbn [rbind]. unfold bytes in *.
    destruct (stage_watermark w (b :: data, current_ext s)) as [[png ext]|e];
      [|reflexivity].
    rewrite !(fun ttl st0 =>
                @caught_image _ _ _ w ttl png (Some ".png") st0 None s s
                  eq_refl eq_refl eq_refl).
    reflexivity.
  - now rewrite action_safe_idle, action_watermark_idle by auto.
Qed.

(** X15.  A strip-only SAFE run is the strip action asked for the three
    categories at once: both leave the same ImageState, from any state. *)
Theorem safe_strip_only_is_strip_of_all (s : App Raster Session) :
  var_striponly s = true ->
  image_state (snd (action_safe w s))
  = image_state (snd (action_strip w "gps,device,datetime" s)).
Proof.
  intros Hmode.
  destruct (current_bytes s) as [[|b data]|] eqn:Hcur.
  - now rewrite action_safe_idle, action_strip_idle by auto.
  - assert (Hne : b :: data <> []) by discriminate.
    rewrite (action_safe_strip_only w s Hcur Hne Hmode), (action_strip_eq w _ s Hcur Hne).
    change (build_strip_args (split_char "," "gps,device,datetime"))
      with (build_strip_args all_categories).
    destruct (exiftool w); [|reflexivity].
    destruct (exiftool_write_from_bytes w (tempfiles s) (b :: data) _ (current_ext s))
      as [a|e]; [|reflexivity].
    rewrite !(fun ttl st0 =>
                @caught_image _ _ _ w ttl a (Some (current_ext s)) st0 None
                  (tempfile_used w s) (tempfile_used w s) eq_refl eq_refl eq_refl).
    reflexivity.
  - now rewrite action_safe_idle, action_strip_idle by auto.
Qed.

Lemma action_strip_step kind (s : App Raster Session) :
  fst (action_strip w kind s) = Ok tt
  /\ installs w s (snd (action_strip w kind s))
  /\ keeps_snapshot s (snd (action_strip w kind s)).
Proof.
  destruct (current_bytes s) as [[|b data]|] eqn:Hcur;
    try (rewrite (action_strip_idle kind s) by auto; split; [reflexivity|apply idle_step]).
  assert (Hne : b :: data <> []) by discriminate.
  rewrite (action_strip_eq w kind s Hcur Hne). unfold bytes in *.
  destruct (exiftool w).
  - destruct (exiftool_write_from_bytes w (tempfiles s) (b :: data) _ (current_ext s)).
    + split; [apply caught_returns|].
      apply installed_step, tempfile_used_snapshot.
    + split; [reflexivity|].
      apply failed_step; [apply tempfile_used_image|apply tempfile_used_snapshot].
  - split; [reflexivity|].
    apply failed_step; [reflexivity|apply keeps_snapshot_refl].
Qed.

Lemma action_strip_all_step (s : App Raster Session) :
  fst (action_strip_all w s) = Ok tt
  /\ installs w s (snd (action_strip_all w s))
  /\ keeps_snapshot s (snd (action_strip_all w s)).
Proof.
  destruct (current_bytes s) as [[|b data]|] eqn:Hcur;
    try (rewrite (action_strip_all_idle s) by auto; split; [reflexivity|apply idle_step]).
  assert (Hne : b :: data <> []) by discriminate.
  rewrite (action_strip_all_eq w s Hcur Hne). unfold bytes in *.
  match goal with
  | |- context [match ?r with Ok _ => _ | Raise _ => _ end] => destruct r
  end.
  - split; [apply caught_returns|].
    apply installed_step, keeps_snapshot_refl.
  - split; [reflexivity|].
    apply failed_step; [reflexivity|apply keeps_snapshot_refl].
Qed.

Lemma action_watermark_step (s : App Raster Session) :
  fst (action_watermark w s) = Ok tt
  /\ installs w s (snd (action_watermark w s))
  /\ keeps_snapshot s (snd (action_watermark w s)).
Proof.
  destruct (current_bytes s) as [[|b data]|] eqn:Hcur;
    try (rewrite (action_watermark_idle s) by auto; split; [reflexivity|apply idle_step]).
  assert (Hne : b :: data <> []) by discriminate.
  rewrite (action_watermark_eq w s Hcur Hne). unfold bytes in *.
  destruct (stage_watermark w (b :: data, current_ext s)) as [[png ext]|e].
  - split; [apply caught_returns|].
    apply installed_step, keeps_snapshot_refl.
  - split; [reflexivity|].
    apply failed_step; [reflexivity|apply keeps_snapshot_refl].
Qed.

Lemma action_remove_bg_step (s : App Raster Session) :
  fst (action_remove_bg w s) = Ok tt
  /\ installs w s (snd (action_remove_bg w s))
  /\ keeps_snapshot s (snd (action_remove_bg w s)).
Proof.
  destruct (REMBG_OK w) eqn:Hbg;
    [|rewrite (action_remove_bg_idle w s) by auto; split; [reflexivity|apply idle_step]].
  destruct (current_bytes s) as [[|b data]|] eqn:Hcur;
    try (rewrite (action_remove_bg_idle w s) by auto; split; [reflexivity|apply idle_step]).
  assert (Hne : b :: data <> []) by discriminate.
  rewrite (action_remove_bg_eq w s Hcur Hne Hbg). unfold bytes in *.
  destruct (stage_background w (_rembg_session s) (b :: data) (current_ext s))
    as [[out ext]|e].
  - split; [apply caught_returns|].
    apply installed_step, with_session_snapshot.
  - split; [reflexivity|].
    apply failed_step; [apply with_session_image|apply with_session_snapshot].
Qed.

(** X16.  The four single-stage actions (strip, strip all, watermark, remove
    background) keep the image in step: the decoded image stays that of the
    current bytes, however the action ends.  None of them touches the
    snapshot of the opened file or the strip-only switch. *)
Theorem buttons_keep_in_step (kind : string) (s : App Raster Session) :
  image_in_step w s ->
  (image_in_step w (snd (action_strip w kind s))
   /\ keeps_snapshot s (snd (action_strip w kind s)))
  /\ (image_in_step w (snd (action_strip_all w s))
      /\ keeps_snapshot s (snd (action_strip_all w s)))
  /\ (image_in_step w (snd (action_watermark w s))
      /\ keeps_snapshot s (snd (action_watermark w s)))
  /\ (image_in_step w (snd (action_remove_bg w s))
      /\ keeps_snapshot s (snd (action_remove_bg w s))).
Proof.
  intros Hs.
  destruct (action_strip_step kind s) as (_ & H1 & K1).
  destruct (action_strip_all_step s) as (_ & H2 & K2).
  destruct (action_watermark_step s) as (_ & H3 & K3).
  destruct (action_remove_bg_step s) as (_ & H4 & K4).
  repeat split; try (eapply installs_in_step; eassumption);
    first [apply K1 | apply K2 | apply K3 | apply K4].
Qed.

Lemma action_revert_eq seps (s : App Raster Session) data :
  original_bytes s = Some data ->
  action_revert w seps s
  = _set_from_bytes w data (Some (original_ext seps s)) (Some "Reverted.") s.
Proof.
  intros H. unfold action_revert, bind, gets, ret. now rewrite H.
Qed.

(** X17.  Revert makes the bytes of the opened file current again, with the
    image PIL decodes from them, and leaves the snapshot alone, whether or
    not reading the metadata or refreshing the widgets raises on the way.
    The hint becomes the lower-cased extension of the opened path; when that
    path has no extension, the hint in force stays. *)
Theorem action_revert_restores (seps : list ascii) (s : App Raster Session)
    (data : bytes) :
  original_bytes s = Some data ->
  let s' := snd (action_revert w seps s) in
  current_bytes s' = Some data
  /\ image_in_step w s'
  /\ original_bytes s' = Some data
  /\ original_path s' = original_path s
  /\ (forall im, Image_open w data = Returns im ->
                 current_image s' = Some im
                 /\ current_ext s'
                    = if str_truthy (original_ext seps s) then original_ext seps s
                      else current_ext s).
Proof.
  intros Horig s'. subst s'. rewrite (action_revert_eq seps s Horig).
  destruct (set_from_bytes_makes_in_step w data (Some (original_ext seps s))
              (Some "Reverted.") s) as (Hb & Hc).
  destruct (set_from_bytes_snapshot w data (Some (original_ext seps s))
              (Some "Reverted.") s) as (Ho & Hp & _).
  pose proof (proj1 (set_from_bytes_state w data (Some (original_ext seps s))
                       (Some "Reverted.") s)) as Hst.
  repeat split; auto; try congruence.
  - rewrite H in Hst. unfold image_state in Hst. congruence.
  - rewrite H in Hst. unfold image_state, hinted, str_or in Hst. congruence.
Qed.

Lemma action_revert_idle seps (s : App Raster Session) :
  original_bytes s = None -> action_revert w seps s = (Ok tt, s).
Proof. intros H. unfold action_revert, bind, gets, ret. now rewrite H. Qed.

(** X18.  Revert undoes a SAFE run: after any SAFE run, in either mode and
    however it ended, reverting makes the bytes of the opened file current
    again, with the image PIL decodes from them. *)
Theorem revert_after_safe (seps : list ascii) (s : App Raster Session) (data : bytes) :
  original_bytes s = Some data ->
  let s' := snd (action_revert w seps (snd (action_safe w s))) in
  current_bytes s' = Some data
  /\ image_in_step w s'
  /\ original_bytes s' = Some data.
Proof.
  intros Horig s'. subst s'.
  destruct (action_safe_step w s) as (_ & _ & (Ho & _ & _)).
  assert (Horig' : original_bytes (snd (action_safe w s)) = Some data) by congruence.
  rewrite (action_revert_eq seps _ Horig').
  destruct (set_from_bytes_makes_in_step w data
              (Some (original_ext seps (snd (action_safe w s))))
              (Some "Reverted.") (snd (action_safe w s))) as (Hb & Hc).
  destruct (set_from_bytes_snapshot w data
              (Some (original_ext seps (snd (action_safe w s))))
              (Some "Reverted.") (snd (action_safe w s))) as (Ho2 & _).
  repeat split; auto. congruence.
Qed.

End Relations.

(** [os.path.splitext] at work. *)
Lemma splitext_examples :
  splitext_ext posix_seps "/home/ann/photo.JPG" = ".JPG"
  /\ splitext_ext posix_seps "archive.tar.gz" = ".gz"
  /\ splitext_ext posix_seps "/home/ann/.bashrc" = EmptyString
  /\ splitext_ext posix_seps "/home/ann.d/photo" = EmptyString
  /\ splitext_ext posix_seps "..jpg" = EmptyString
  /\ splitext_ext posix_seps "a..jpg" = ".jpg"
  /\ splitext_ext windows_seps (String "C" (String ":" (String backslash
       ("pics.old" ++ String backslash "img.heic")))) = ".heic"
  /\ splitext_ext posix_seps EmptyString = EmptyString.
Proof. repeat split; reflexivity. Qed.

(** A machine with neither rembg nor ExifTool. *)
Lemma safe_without_tools_is_watermark_witness :
  let w := without_exiftool (sample_world None EmptyString known_magic) in
  let s := sample_state false jpeg_bytes (Some sample_image) ".jpg" in
  image_state (snd (action_safe w s)) = image_state (snd (action_watermark w s)).
Proof.
  exact (@safe_without_tools_is_watermark unit unit unit
           (without_exiftool (sample_world None EmptyString known_magic))
           (sample_state false jpeg_bytes (Some sample_image) ".jpg")
           eq_refl eq_refl eq_refl).
Defined.

(** A strip-only run on a HEIC file PIL cannot open. *)
Lemma safe_strip_only_is_strip_of_all_witness :
  let w := sample_world (Some heic_stripped) "    1 image files created" known_magic in
  let s := sample_state true heic_bytes None ".heic" in
  image_state (snd (action_safe w s))
  = image_state (snd (action_strip w "gps,device,datetime" s)).
Proof.
  exact (@safe_strip_only_is_strip_of_all unit unit unit
           (sample_world (Some heic_stripped) "    1 image files created" known_magic)
           (sample_state true heic_bytes None ".heic") eq_refl).
Defined.

(** The watermark and strip buttons on a freshly opened JPEG. *)
Lemma buttons_keep_in_step_witness :
  let w := sample_world None "    1 image files unchanged" known_magic in
  let s := sample_state false jpeg_bytes (Some sample_image) ".jpg" in
  image_in_step w (snd (action_strip w "device" s))
  /\ image_in_step w (snd (action_watermark w s)).
Proof.
  exact (let H := @buttons_keep_in_step unit unit unit
                    (sample_world None "    1 image files unchanged" known_magic)
                    "device"
                    (sample_state false jpeg_bytes (Some sample_image) ".jpg")
                    eq_refl
         in conj (proj1 (proj1 H)) (proj1 (proj1 (proj2 (proj2 H))))).
Defined.

(** Revert after the watermark button: the JPEG and its hint are back. *)
Lemma action_revert_restores_witness :
  let w := sample_world None EmptyString known_magic in
  let s := snd (action_watermark w
                  (sample_state false jpeg_bytes (Some sample_image) ".jpg")) in
  current_ext s = ".png"
  /\ current_bytes (snd (action_revert w posix_seps s)) = Some jpeg_bytes
  /\ current_ext (snd (action_revert w posix_seps s)) = ".jpg".
Proof.
  exact (let H := @action_revert_restores unit unit unit
                    (sample_world None EmptyString known_magic) posix_seps
                    (snd (action_watermark (sample_world None EmptyString known_magic)
                            (sample_state false jpeg_bytes (Some sample_image) ".jpg")))
                    jpeg_bytes eq_refl
         in conj eq_refl
              (conj (proj1 H)
                 (proj2 (proj2 (proj2 (proj2 (proj2 H))) sample_image eq_refl)))).
Defined.

(** Revert after a full SAFE run. *)
Lemma revert_after_safe_witness :
  let w := sample_world None "    1 image files unchanged" known_magic in
  let s := sample_state false jpeg_bytes (Some sample_image) ".jpg" in
  current_bytes (snd (action_safe w s)) = Some [Byte.x89; Byte.x50; Byte.x4e; Byte.x47]
  /\ current_bytes (snd (action_revert w posix_seps (snd (action_safe w s))))
     = Some jpeg_bytes.
Proof.
  exact (conj eq_refl
           (proj1 (@revert_after_safe unit unit unit
                     (sample_world None "    1 image files unchanged" known_magic)
                     posix_seps
                     (sample_state false jpeg_bytes (Some sample_image) ".jpg")
                     jpeg_bytes eq_refl))).
Defined.

(** ** Opening a file *)

Section Opening.

Variables Raster Font Session : Type.
Variable w : World Raster Font Session.
Variable askopenfilename : outcome string.
Variable read_bytes : string -> outcome bytes.

Lemma action_open_eq seps (s : App Raster Session) fp raw :
  askopenfilename = Returns fp -> fp <> EmptyString -> read_bytes fp = Returns raw ->
  action_open w askopenfilename read_bytes seps s
  = _set_from_bytes w raw (Some (path_hint seps fp)) (Some "Loaded.")
      (set_current_ext (path_hint seps fp)
         (set_original_bytes (Some raw) (set_original_path (Some fp) s))).
Proof.
  intros Hfp Hne Hraw.
  unfold action_open, read_file_bytes, bind, lift, gets, modify, ret. rewrite Hfp. cbn [call].
  destruct fp as [|c fp]; [congruence|]. cbn [str_truthy negb].
  rewrite Hraw. reflexivity.
Qed.

Lemma action_open_state seps (s : App Raster Session) fp raw :
  askopenfilename = Returns fp -> fp <> EmptyString -> read_bytes fp = Returns raw ->
  let s' := snd (action_open w askopenfilename read_bytes seps s) in
  original_path s' = Some fp
  /\ original_bytes s' = Some raw
  /\ current_bytes s' = Some raw
  /\ image_in_step w s'
  /\ current_ext s' = path_hint seps fp
  /\ var_striponly s' = var_striponly s.
Proof.
  intros Hfp Hne Hraw s'. subst s'. rewrite (action_open_eq seps s Hfp Hne Hraw).
  set (sm := set_current_ext _ _).
  destruct (set_from_bytes_snapshot w raw (Some (path_hint seps fp)) (Some "Loaded.") sm)
    as (Ho & Hp & Hv).
  destruct (set_from_bytes_makes_in_step w raw (Some (path_hint seps fp))
              (Some "Loaded.") sm) as (Hb & Hc).
  pose proof (proj1 (set_from_bytes_state w raw (Some (path_hint seps fp))
                       (Some "Loaded.") sm)) as Hst.
  repeat split; auto.
  unfold image_state in Hst. cbn [hinted] in Hst.
  change (current_ext sm) with (path_hint seps fp) in Hst. rewrite str_or_same in Hst.
  destruct (Image_open w raw); injection Hst as _ _ _ Hext; exact Hext.
Qed.

(** X19.  Opening a readable file makes its bytes both the snapshot and the
    current bytes, with the image PIL decodes from them; the format hint
    becomes the lower-cased extension of the path, or .jpg when the path has
    none, whether or not the file decodes and whether or not reading the
    metadata raises. *)
Theorem action_open_loads (seps : list ascii) (s : App Raster Session)
    (fp : string) (raw : bytes) :
  askopenfilename = Returns fp -> fp <> EmptyString -> read_bytes fp = Returns raw ->
  let s' := snd (action_open w askopenfilename read_bytes seps s) in
  original_path s' = Some fp
  /\ original_bytes s' = Some raw
  /\ current_bytes s' = Some raw
  /\ image_in_step w s'
  /\ current_ext s' = str_or (lower (splitext_ext seps fp)) ".jpg"
  /\ var_striponly s' = var_striponly s.
Proof.
  intros Hfp Hne Hraw. exact (action_open_state seps s Hfp Hne Hraw).
Qed.

(** X20.  A cancelled dialog changes nothing.  A file that cannot be read is
    reported and changes nothing else: the image that was loaded stays
    current, and its snapshot stays the one revert goes back to. *)
Theorem action_open_keeps_on_failure (seps : list ascii) (s : App Raster Session) :
  (askopenfilename = Returns EmptyString ->
   action_open w askopenfilename read_bytes seps s = (Ok tt, s))
  /\ (forall fp d,
        askopenfilename = Returns fp -> fp <> EmptyString -> read_bytes fp = Fails d ->
        action_open w askopenfilename read_bytes seps s
        = (Ok tt, add_dialog (stage_dialog "Open" (External d)) s)).
Proof.
  split.
  - intros H. unfold action_open, bind, lift, ret. now rewrite H.
  - intros fp d Hfp Hne Hd.
    unfold action_open, read_file_bytes, bind, lift, ret. rewrite Hfp. cbn [call].
    destruct fp as [|c fp]; [congruence|]. cbn [str_truthy negb]. rewrite Hd. reflexivity.
Qed.

(** X21.  Revert right after opening leaves the bytes, the decoded image
    and the format hint as opening made them: the hint revert derives from
    the path is the one opening set.  The metadata is read again, through a
    new temporary file, and is what that read returns. *)
Theorem revert_after_open (seps : list ascii) (s : App Raster Session)
    (fp : string) (raw : bytes) :
  askopenfilename = Returns fp -> fp <> EmptyString -> read_bytes fp = Returns raw ->
  let s1 := snd (action_open w askopenfilename read_bytes seps s) in
  let s2 := snd (action_revert w seps s1) in
  current_bytes s2 = current_bytes s1
  /\ current_image s2 = current_image s1
  /\ current_ext s2 = current_ext s1
  /\ original_bytes s2 = Some raw
  /\ original_path s2 = Some fp
  /\ (forall im ex,
        Image_open w raw = Returns im ->
        read_exif_from_bytes w (tempfiles s1) raw (current_ext s1) = Ok ex ->
        current_exif s2 = ex).
Proof.
  intros Hfp Hne Hraw s1 s2.
  destruct (action_open_state seps s Hfp Hne Hraw) as (Hp & Ho & Hb & Hstep & Hext & _).
  fold s1 in Hp, Ho, Hb, Hstep, Hext.
  unfold s2. rewrite (action_revert_eq w seps s1 Ho).
  destruct (set_from_bytes_snapshot w raw (Some (original_ext seps s1)) (Some "Reverted.") s1)
    as (Ho' & Hp' & _).
  pose proof (proj1 (set_from_bytes_state w raw (Some (original_ext seps s1))
                       (Some "Reverted.") s1)) as Hst.
  assert (Hh : hinted (Some (original_ext seps s1)) (current_ext s1) = current_ext s1).
  { rewrite Hext. unfold hinted, original_ext. rewrite Hp. unfold path_hint, str_or.
    now destruct (str_truthy (lower (splitext_ext seps fp))). }
  rewrite Hh in Hst. unfold image_in_step in Hstep. rewrite Hb in Hstep.
  unfold image_state, metadata in Hst.
  destruct (Image_open w raw) as [im|d]; injection Hst as Hb2 Hi2 He2 Hx2.
  - repeat split; try congruence.
    intros im' ex [= <-] Hread. now rewrite Hread in He2.
  - repeat split; try congruence; discriminate.
Qed.

End Opening.

(** ** Converting *)

Lemma upper_nonempty s : s <> EmptyString -> upper s <> EmptyString.
Proof.
  destruct s as [|c t]; [congruence|]. intros _. cbn [upper].
  destruct (code c =? 223)%N; [discriminate|].
  destruct ((97 <=? code c) && (code c <=? 122)
            || (224 <=? code c) && (code c <=? 254) && negb (code c =? 247))%N;
    discriminate.
Qed.

Lemma upper_char_idem c :
  upper (upper (String c EmptyString)) = upper (String c EmptyString).
Proof.
  destruct c as [[] [] [] [] [] [] [] []]; reflexivity.
Qed.

Lemma upper_cons c t : upper (String c t) = upper (String c EmptyString) ++ upper t.
Proof.
  cbn [upper].
  destruct (code c =? 223)%N; [reflexivity|].
  destruct ((97 <=? code c) && (code c <=? 122)
            || (224 <=? code c) && (code c <=? 254) && negb (code c =? 247))%N;
    reflexivity.
Qed.

Lemma upper_app a b : upper (a ++ b) = upper a ++ upper b.
Proof.
  induction a as [|c a IH]; [reflexivity|].
  cbn [append]. rewrite (upper_cons c (a ++ b)), (upper_cons c a), IH.
  now rewrite append_assoc.
Qed.

Lemma upper_idem s : upper (upper s) = upper s.
Proof.
  induction s as [|c t IH]; [reflexivity|].
  rewrite (upper_cons c t), upper_app, upper_char_idem, IH. reflexivity.
Qed.

Lemma format_name_upper f : format_name (upper f) = format_name f.
Proof.
  unfold format_name, str_or.
  destruct f as [|c t]; [reflexivity|].
  assert (H : upper (String c t) <> EmptyString) by (apply upper_nonempty; discriminate).
  destruct (upper (String c t)) as [|c' t'] eqn:E; [congruence|].
  cbn [str_truthy]. rewrite <- E. now rewrite upper_idem.
Qed.

Section Converting.

Variables Raster Font Session : Type.
Variable w : World Raster Font Session.

Lemma ensure_rgb_mode (img out : Image Raster) :
  ensure_rgb w img = Ok out -> str_in (mode out) ["RGBA"; "LA"; "P"] = false.
Proof.
  unfold ensure_rgb, convert.
  destruct (str_in (mode img) ["RGBA"; "LA"; "P"]) eqn:E.
  - destruct (convert_raster w (mode img) "RGB" (raster img)); [|discriminate].
    cbn [call rbind]. now intros [= <-].
  - now intros [= <-].
Qed.

Lemma action_convert_by_name save f g (s : App Raster Session) :
  format_name f = format_name g ->
  action_convert w save f s = action_convert w save g s.
Proof. intros H. unfold action_convert. now rewrite H. Qed.

(** X22.  The format asked of [action_convert] is read without regard to
    letter case, any spelling of JPG means JPEG, and no choice at all
    means PNG. *)
Theorem action_convert_format_names (save : Image Raster -> string -> outcome bytes)
    (f : string) (s : App Raster Session) :
  action_convert w save (upper f) s = action_convert w save f s
  /\ (upper f = "JPG" -> action_convert w save f s = action_convert w save "JPEG" s)
  /\ action_convert w save EmptyString s = action_convert w save "PNG" s.
Proof.
  split; [|split].
  - apply action_convert_by_name, format_name_upper.
  - intros H. apply action_convert_by_name.
    rewrite <- (format_name_upper f), H. reflexivity.
  - reflexivity.
Qed.

Lemma action_convert_idle save f (s : App Raster Session) :
  current_bytes s = None \/ current_bytes s = Some [] ->
  action_convert w save f s = (Ok tt, s).
Proof.
  unfold action_convert, bind, gets, ret. intros [H|H]; rewrite H; reflexivity.
Qed.

(** The image [action_convert] hands to the encoder. *)
Lemma action_convert_eq save f (s : App Raster Session) data :
  current_bytes s = Some data -> data <> [] ->
  action_convert w save f s
  = match (im <- open_image_any w data ;;
           if String.eqb (format_name f) "JPEG" then ensure_rgb w im else Ok im)%result
    with
    | Raise e => (Ok tt, add_dialog (stage_dialog "Convert" e) s)
    | Ok img =>
        match save img (format_name f) with
        | Fails d => (Ok tt, add_dialog (stage_dialog "Convert" (External d)) s)
        | Returns out =>
            caught "Convert"
              (_set_from_bytes w out (Some (format_ext (format_name f)))
                 (Some ("Converted to " ++ format_name f ++ "."))) s
        end
    end.
Proof.
  intros Hcur Hne.
  unfold action_convert, bind, gets, ret. rewrite Hcur.
  destruct data as [|b data]; [congruence|].
  unfold caught, try_exceptM, bind, gets, lift.
  destruct (open_image_any w (b :: data)) as [im|e]; [|reflexivity]. cbn [rbind].
  destruct (if String.eqb (format_name f) "JPEG" then ensure_rgb w im else Ok im)
    as [img|e]; [|reflexivity].
  destruct (save img (format_name f)) as [out|d]; reflexivity.
Qed.

(** X23.  A conversion to JPEG never hands the encoder an image in one of
    the modes RGBA, LA and P: what the encoder would do with such an image
    makes no difference to the action. *)
Theorem action_convert_jpeg_ready (save1 save2 : Image Raster -> string -> outcome bytes)
    (f : string) (s : App Raster Session) :
  format_name f = "JPEG" ->
  (forall img, str_in (mode img) ["RGBA"; "LA"; "P"] = false ->
               save1 img "JPEG" = save2 img "JPEG") ->
  action_convert w save1 f s = action_convert w save2 f s.
Proof.
  intros Hf Hsame.
  destruct (current_bytes s) as [[|b data]|] eqn:Hcur;
    try (now rewrite !action_convert_idle by auto).
  assert (Hne : b :: data <> []) by discriminate.
  rewrite !(action_convert_eq _ f s Hcur Hne), Hf. cbn [String.eqb Ascii.eqb Bool.eqb].
  destruct (open_image_any w (b :: data)) as [im|e]; [|reflexivity]. cbn [rbind].
  destruct (ensure_rgb w im) as [img|e] eqn:Hrgb; [|reflexivity].
  rewrite (Hsame img); [reflexivity|].
  exact (ensure_rgb_mode im Hrgb).
Qed.

Lemma action_convert_step save f (s : App Raster Session) :
  fst (action_convert w save f s) = Ok tt
  /\ installs w s (snd (action_convert w save f s))
  /\ keeps_snapshot s (snd (action_convert w save f s)).
Proof.
  destruct (current_bytes s) as [[|b data]|] eqn:Hcur;
    try (rewrite (action_convert_idle save f s) by auto; split; [reflexivity|apply idle_step]).
  assert (Hne : b :: data <> []) by discriminate.
  rewrite (action_convert_eq save f s Hcur Hne).
  match goal with
  | |- context [match ?r with Ok _ => _ | Raise _ => _ end] => destruct r as [img|e]
  end.
  - destruct (save img (format_name f)) as [out|d].
    + split; [apply caught_returns|].
      apply installed_step, keeps_snapshot_refl.
    + split; [reflexivity|].
      apply failed_step; [reflexivity|apply keeps_snapshot_refl].
  - split; [reflexivity|].
    apply failed_step; [reflexivity|apply keeps_snapshot_refl].
Qed.

(** X24.  With current bytes that decode, [action_convert] encodes the image
    in the format asked for (for JPEG, what [ensure_rgb] makes of it) and
    makes the result current under the hint of that format: .jpeg for JPEG,
    a dot and the lower-cased name otherwise.  When [ensure_rgb] or the
    encoder raises, the error is reported and the ImageState stays. *)
Theorem action_convert_outcome (save : Image Raster -> string -> outcome bytes)
    (f : string) (s : App Raster Session) (data : bytes) (im : Image Raster) :
  current_bytes s = Some data -> data <> [] -> Image_open w data = Returns im ->
  let s' := snd (action_convert w save f s) in
  let fmt := format_name f in
  match (if String.eqb fmt "JPEG" then ensure_rgb w im else Ok im) with
  | Ok img =>
      match save img fmt with
      | Returns out =>
          image_state s'
          = image_state (snd (_set_from_bytes w out
                                (Some (if String.eqb fmt "JPEG" then ".jpeg"
                                       else "." ++ lower fmt)) None s))
      | Fails d =>
          image_state s' = image_state s
          /\ dialogs s' = stage_dialog "Convert" (External d) :: dialogs s
      end
  | Raise e =>
      image_state s' = image_state s
      /\ dialogs s' = stage_dialog "Convert" e :: dialogs s
  end.
Proof.
  intros Hcur Hne Him s' fmt. subst s' fmt.
  rewrite (action_convert_eq save f s Hcur Hne).
  unfold open_image_any. rewrite Him. cbn [call rbind].
  destruct (if String.eqb (format_name f) "JPEG" then ensure_rgb w im else Ok im)
    as [img|e]; [|split; reflexivity].
  destruct (save img (format_name f)) as [out|d]; [|split; reflexivity].
  now apply caught_image.
Qed.

(** X25.  [action_convert] never raises to its caller, keeps the image in
    step with the bytes (the decoded image stays that of the current bytes),
    and touches neither the snapshot of the opened file nor the strip-only
    switch: whatever format is asked for and whatever the decoder, the
    encoder and the metadata read do. *)
Theorem action_convert_keeps_in_step (save : Image Raster -> string -> outcome bytes)
    (f : string) (s : App Raster Session) :
  image_in_step w s ->
  fst (action_convert w save f s) = Ok tt
  /\ image_in_step w (snd (action_convert w save f s))
  /\ keeps_snapshot s (snd (action_convert w save f s)).
Proof.
  intros Hs. destruct (action_convert_step save f s) as (Hr & Hi & Hk).
  split; [exact Hr|split; [|exact Hk]].
  exact (installs_in_step Hi Hs).
Qed.

End Converting.

Lemma action_open_loads_witness :
  let s' := snd (action_open (sample_world None EmptyString known_magic)
                   (Returns "/home/ann/Photo.JPG") (fun _ => Returns jpeg_bytes)
                   posix_seps initial_state) in
  original_path s' = Some "/home/ann/Photo.JPG"
  /\ current_bytes s' = Some jpeg_bytes
  /\ current_ext s' = ".jpg".
Proof.
  exact (let H := @action_open_loads unit unit unit
                    (sample_world None EmptyString known_magic)
                    (Returns "/home/ann/Photo.JPG") (fun _ => Returns jpeg_bytes)
                    posix_seps initial_state "/home/ann/Photo.JPG" jpeg_bytes
                    eq_refl
                    (fun H => eq_ind "/home/ann/Photo.JPG"
                                (fun x => match x with
                                          | EmptyString => False
                                          | String _ _ => True
                                          end) I EmptyString H)
                    eq_refl
         in conj (proj1 H)
              (conj (proj1 (proj2 (proj2 H)))
                 (proj1 (proj2 (proj2 (proj2 (proj2 H))))))).
Defined.

(** A file without extension that PIL cannot open, opened over a loaded
    JPEG: revert stays on the new file, under the .jpg hint. *)
Lemma revert_after_open_witness :
  let w := sample_world None EmptyString known_magic in
  let s1 := snd (action_open w (Returns "notes") (fun _ => Returns heic_bytes)
                   posix_seps
                   (sample_state false jpeg_bytes (Some sample_image) ".png")) in
  let s2 := snd (action_revert w posix_seps s1) in
  image_state s1 = (Some heic_bytes, None, empty_dict, ".jpg")
  /\ current_bytes s2 = current_bytes s1
  /\ current_image s2 = current_image s1
  /\ current_ext s2 = current_ext s1.
Proof.
  exact (let H := @revert_after_open unit unit unit
                    (sample_world None EmptyString known_magic)
                    (Returns "notes") (fun _ => Returns heic_bytes)
                    posix_seps
                    (sample_state false jpeg_bytes (Some sample_image) ".png")
                    "notes" heic_bytes
                    eq_refl
                    (fun H => eq_ind "notes"
                                (fun x => match x with
                                          | EmptyString => False
                                          | String _ _ => True
                                          end) I EmptyString H)
                    eq_refl
         in conj eq_refl
              (conj (proj1 H) (conj (proj1 (proj2 H)) (proj1 (proj2 (proj2 H)))))).
Defined.

Lemma action_convert_jpeg_ready_witness :
  let w := sample_world None EmptyString known_magic in
  let s := sample_state false jpeg_bytes (Some sample_image) ".jpg" in
  action_convert w sample_save "jpg" s = action_convert w lenient_save "jpg" s.
Proof.
  apply (@action_convert_jpeg_ready unit unit unit
           (sample_world None EmptyString known_magic) sample_save lenient_save "jpg"
           (sample_state false jpeg_bytes (Some sample_image) ".jpg") eq_refl).
  intros img H. unfold sample_save, lenient_save. cbn [String.eqb Ascii.eqb Bool.eqb].
  rewrite H. reflexivity.
Defined.

(** A PNG converted to JPEG. *)
Lemma action_convert_outcome_witness :
  let w := sample_world None EmptyString known_magic in
  let s := sample_state false [Byte.x89; Byte.x50; Byte.x4e; Byte.x47]
             (Some sample_image) ".png" in
  image_state (snd (action_convert w sample_save "jpg" s))
  = (Some jfif_bytes, Some sample_image, empty_dict, ".jpeg").
Proof.
  exact (@action_convert_outcome unit unit unit
           (sample_world None EmptyString known_magic) sample_save "jpg"
           (sample_state false [Byte.x89; Byte.x50; Byte.x4e; Byte.x47]
              (Some sample_image) ".png")
           [Byte.x89; Byte.x50; Byte.x4e; Byte.x47] sample_image eq_refl
           (fun H => eq_ind [Byte.x89; Byte.x50; Byte.x4e; Byte.x47]
                       (fun l => match l with [] => False | _ => True end) I [] H)
           eq_refl).
Defined.

(** A format the encoder does not know. *)
Lemma action_convert_keeps_in_step_witness :
  let w := sample_world None EmptyString known_magic in
  let s := sample_state false jpeg_bytes (Some sample_image) ".jpg" in
  fst (action_convert w sample_save "WEBP" s) = Ok tt
  /\ image_in_step w (snd (action_convert w sample_save "WEBP" s)).
Proof.
  exact (let H := @action_convert_keeps_in_step unit unit unit
                    (sample_world None EmptyString known_magic) sample_save "WEBP"
                    (sample_state false jpeg_bytes (Some sample_image) ".jpg")
                    eq_refl
         in conj (proj1 H) (proj1 (proj2 H))).
Defined.

(** ** ExifTool discovery *)

Section Search.

Variable _MEIPASS : option string.
Variable abspath_dot : string.
Variable path_join : list string -> string.
Variable isabs : string -> bool.
Variable path_exists : string -> bool.
Variable which : string -> option string.

Lemma first_probe_none cs :
  first_probe isabs path_exists which cs = None
  <-> forall c, In c cs -> probe isabs path_exists which c = None.
Proof.
  induction cs as [|c cs IH]; cbn [first_probe].
  - split; [intros _ c []|reflexivity].
  - destruct (probe isabs path_exists which c) as [p|] eqn:Hc.
    + split; [discriminate|]. intros H. specialize (H c (or_introl eq_refl)). congruence.
    + rewrite IH. split.
      * intros H c' [<-|Hin]; auto.
      * intros H c' Hin. apply H. now right.
Qed.

Lemma first_probe_some cs p :
  first_probe isabs path_exists which cs = Some p
  <-> exists before c after,
        cs = (before ++ c :: after)%list
        /\ (forall b, In b before -> probe isabs path_exists which b = None)
        /\ probe isabs path_exists which c = Some p.
Proof.
  induction cs as [|c cs IH]; cbn [first_probe].
  - split; [discriminate|]. intros (before & c & after & H & _). now destruct before.
  - destruct (probe isabs path_exists which c) as [q|] eqn:Hc.
    + split.
      * intros [= <-]. exists [], c, cs. repeat split; auto. intros b [].
      * intros ([|b before] & c' & after & Hcs & Hmiss & Hhit).
        -- injection Hcs as <- _. congruence.
        -- injection Hcs as <- _. specialize (Hmiss c (or_introl eq_refl)). congruence.
    + rewrite IH. split.
      * intros (before & c' & after & -> & Hmiss & Hhit).
        exists (c :: before), c', after. repeat split; auto.
        intros b [<-|Hin]; auto.
      * intros ([|b before] & c' & after & Hcs & Hmiss & Hhit).
        -- injection Hcs as <- _. congruence.
        -- injection Hcs as <- ->. exists before, c', after. repeat split; auto.
           intros b' Hin. apply Hmiss. now right.
Qed.

Lemma probe_origin c p :
  probe isabs path_exists which c = Some p ->
  (isabs c = true /\ path_exists c = true /\ p = c)
  \/ (p <> EmptyString /\ which c = Some p).
Proof.
  unfold probe. destruct (isabs c && path_exists c) eqn:Habs.
  - intros [= <-]. apply andb_true_iff in Habs. left. tauto.
  - destruct (which c) as [q|]; [|discriminate].
    destruct q as [|a q]; [discriminate|]. cbn [str_truthy].
    intros [= <-]. right. split; [discriminate|reflexivity].
Qed.

(** X26.  [find_exiftool] answers with the first of its four candidates, in
    the order bundled copy, the two project folders, the search path, that
    is an absolute path which exists or that [shutil.which] resolves to a
    non-empty path; candidates after it are not looked at.  So a bundled
    copy that exists wins over everything else, the answer is [None] exactly
    when every candidate misses, and an answer is always an existing
    absolute candidate or a non-empty path [shutil.which] gave. *)
Theorem find_exiftool_first_hit :
  let found := find_exiftool _MEIPASS abspath_dot path_join isabs path_exists which in
  let cands := candidates _MEIPASS abspath_dot path_join in
  let bundled := resource_path _MEIPASS abspath_dot path_join ["tools"; "exiftool.exe"] in
  (forall p, found = Some p
             <-> exists before c after,
                   cands = (before ++ c :: after)%list
                   /\ (forall b, In b before -> probe isabs path_exists which b = None)
                   /\ probe isabs path_exists which c = Some p)
  /\ (isabs bundled = true -> path_exists bundled = true -> found = Some bundled)
  /\ (found = None <-> forall c, In c cands -> probe isabs path_exists which c = None)
  /\ (forall p, found = Some p ->
                 (exists c, In c cands /\ isabs c = true /\ path_exists c = true /\ p = c)
                 \/ (p <> EmptyString /\ exists c, In c cands /\ which c = Some p))
  /\ length cands = 4%nat
  /\ nth_error cands 3 = Some "exiftool".
Proof.
  cbv zeta. unfold find_exiftool. split; [|split; [|split; [|split]]].
  - intros p. apply first_probe_some.
  - intros Ha He. unfold candidates. cbn [first_probe]. unfold probe at 1.
    now rewrite Ha, He.
  - apply first_probe_none.
  - intros p Hp. apply first_probe_some in Hp.
    destruct Hp as (before & c & after & Hcs & _ & Hhit).
    assert (Hin : In c (candidates _MEIPASS abspath_dot path_join)).
    { rewrite Hcs. apply in_or_app. right. now left. }
    destruct (probe_origin _ Hhit) as [(Ha & He & ->)|(Hne & Hw)].
    + left. now exists c.
    + right. split; [exact Hne|now exists c].
  - split; reflexivity.
Qed.

End Search.

(** The bundled copy is missing, the project folders hold nothing, and the
    search path knows the tool. *)
Lemma find_exiftool_on_path :
  find_exiftool None "/home/ann/app" sample_join sample_isabs (fun _ => false) sample_which
  = Some "/usr/bin/exiftool"
  /\ candidates None "/home/ann/app" sample_join
     = ["/home/ann/app/tools/exiftool.exe"; "tools/exiftool.exe";
        "tools/exiftool_files/exiftool.exe"; "exiftool"].
Proof. split; reflexivity. Qed.

(** [str.replace] and the format names at work. *)
Lemma format_name_examples :
  replace "JPG" "JPEG" "AJPGJPGB" = "AJPEGJPEGB"
  /\ replace "aa" "b" "aaa" = "ba"
  /\ format_name "jpg" = "JPEG"
  /\ format_name "Jpeg" = "JPEG"
  /\ format_name "webp" = "WEBP"
  /\ format_name EmptyString = "PNG"
  /\ format_ext (format_name "jpg") = ".jpeg"
  /\ format_ext (format_name "WEBP") = ".webp".
Proof. repeat split; reflexivity. Qed.
